(** * helios_solc.install: installation paths, process runner and dispatcher

    A shallow embedding of [helios_solc/install.py] (and of the exception
    class of [helios_solc/exceptions.py]).  Python strings are [string],
    dictionaries with string keys are association lists in insertion
    order, and effectful functions are computations in a small monad over
    an explicit world: the file system behind an interface, the working
    directory, what was printed and what children wrote, and a log of
    the system calls made.

    The path functions are those of [posixpath], the [os.path] of the two
    platforms the dispatch table knows (linux and darwin).  Left out:
    [extract_release], which no strategy of the dispatch table calls. *)

From Stdlib Require Import String Ascii List ZArith Bool Lia.
From Stdlib Require Import Sorting.Permutation Sorting.Sorted.
Import ListNotations.
Local Open Scope list_scope.
Local Open Scope string_scope.

(* ------------------------------------------------------------------ *)
(** ** Python string methods *)
(* ------------------------------------------------------------------ *)

Module Str.

(** [s.startswith(p)] *)
Definition startswith (s p : string) : bool := String.prefix p s.

(** [s.endswith(p)]: some tail of [s] is [p]. *)
Fixpoint endswith (s p : string) : bool :=
  String.eqb s p ||
  match s with
  | EmptyString => false
  | String _ s' => endswith s' p
  end.

(** [c in s] for a one-character [c]. *)
Fixpoint contains (c : ascii) (s : string) : bool :=
  match s with
  | EmptyString => false
  | String a s' => Ascii.eqb a c || contains c s'
  end.

(** Truthiness of a string: only the empty string is false. *)
Definition truthy (s : string) : bool :=
  match s with EmptyString => false | String _ _ => true end.

(** [s.lstrip(c)], [s.rstrip(c)] and [s.strip(c)] for a one-character
    set. *)
Fixpoint lstrip (c : ascii) (s : string) : string :=
  match s with
  | EmptyString => EmptyString
  | String a s' => if Ascii.eqb a c then lstrip c s' else s
  end.

Fixpoint rstrip (c : ascii) (s : string) : string :=
  match s with
  | EmptyString => EmptyString
  | String a s' =>
      match rstrip c s' with
      | EmptyString => if Ascii.eqb a c then EmptyString else String a EmptyString
      | r => String a r
      end
  end.

Definition strip (c : ascii) (s : string) : string := rstrip c (lstrip c s).

(** [s.split(c)] for a one-character separator: never the empty list. *)
Fixpoint split (c : ascii) (s : string) : list string :=
  match s with
  | EmptyString => [EmptyString]
  | String a s' =>
      if Ascii.eqb a c then EmptyString :: split c s'
      else match split c s' with
           | [] => [String a EmptyString]
           | w :: ws => String a w :: ws
           end
  end.

(** [sep.join(parts)] *)
Definition join (sep : string) (parts : list string) : string :=
  String.concat sep parts.

(** [s[i:]] *)
Definition from (i : nat) (s : string) : string :=
  String.substring i (String.length s - i) s.

(** [c * n] *)
Fixpoint repeat (c : ascii) (n : nat) : string :=
  match n with
  | O => EmptyString
  | S k => String c (repeat c k)
  end.

End Str.

(* ------------------------------------------------------------------ *)
(** ** Dictionaries with string keys *)
(* ------------------------------------------------------------------ *)

Definition dict (V : Type) : Type := list (string * V).

Fixpoint dict_get {V} (d : dict V) (k : string) : option V :=
  match d with
  | [] => None
  | (k', v) :: d' => if String.eqb k' k then Some v else dict_get d' k
  end.

(** [k in d] *)
Definition dict_mem {V} (d : dict V) (k : string) : bool :=
  match dict_get d k with Some _ => true | None => false end.

(** [d.keys()] *)
Definition dict_keys {V} (d : dict V) : list string := map fst d.

(** [sorted(xs)] on strings, by code point. *)
Fixpoint insert_sorted (x : string) (xs : list string) : list string :=
  match xs with
  | [] => [x]
  | y :: ys => if String.leb x y then x :: xs else y :: insert_sorted x ys
  end.

Fixpoint sorted (xs : list string) : list string :=
  match xs with
  | [] => []
  | x :: xs' => insert_sorted x (sorted xs')
  end.

(* ------------------------------------------------------------------ *)
(** ** The host: environment variables and the password database *)
(* ------------------------------------------------------------------ *)

Record Host := {
  environ      : dict string;          (* os.environ *)
  pw_uid_dir   : option string;        (* pwd.getpwuid(os.getuid()).pw_dir *)
  pw_name_dir  : dict string;          (* pwd.getpwnam(name).pw_dir *)
  sys_platform : string                (* sys.platform *)
}.

(* ------------------------------------------------------------------ *)
(** ** posixpath *)
(* ------------------------------------------------------------------ *)

Module PosixPath.

Definition sep : string := "/".
Definition sep_char : ascii := "/"%char.

(** One step of the loop of [posixpath.join]. *)
Definition join_step (path b : string) : string :=
  if Str.startswith b sep then b
  else if negb (Str.truthy path) || Str.endswith path sep then path ++ b
  else path ++ sep ++ b.

(** [os.path.join(a, *p)] *)
Definition join (a : string) (p : list string) : string :=
  fold_left join_step p a.

(** [p[:p.rfind('/') + 1]] *)
Fixpoint head_to_last_sep (p : string) : string :=
  match p with
  | EmptyString => EmptyString
  | String c p' =>
      if Str.contains sep_char p' then String c (head_to_last_sep p')
      else if Ascii.eqb c sep_char then String c EmptyString
      else EmptyString
  end.

(** [os.path.dirname(p)] *)
Definition dirname (p : string) : string :=
  let head := head_to_last_sep p in
  if Str.truthy head
     && negb (String.eqb head (Str.repeat sep_char (String.length head)))
  then Str.rstrip sep_char head
  else head.

(** [os.path.expanduser(path)] *)
Definition expanduser (h : Host) (path : string) : string :=
  if negb (Str.startswith path "~") then path
  else
    let i := match String.index 1 sep path with
             | Some i => i
             | None => String.length path
             end in
    let userhome :=
      if Nat.eqb i 1 then
        match dict_get (environ h) "HOME" with
        | Some home => Some home
        | None => pw_uid_dir h
        end
      else dict_get (pw_name_dir h) (String.substring 1 (i - 1) path) in
    match userhome with
    | None => path
    | Some home =>
        let r := Str.rstrip sep_char home ++ Str.from i path in
        if Str.truthy r then r else sep
    end.

End PosixPath.

(** What [posixpath.join] puts between two components. *)
Definition glue (path : string) : string :=
  if negb (Str.truthy path) || Str.endswith path "/" then "" else "/".

(* ------------------------------------------------------------------ *)
(** ** Installation filesystem path utilities *)
(* ------------------------------------------------------------------ *)

Definition V100_5_12 : string := "v100.5.12".
Definition V100_5_15 : string := "v100.5.15".

Definition LINUX : string := "linux".
Definition OSX : string := "darwin".
Definition WINDOWS : string := "win32".

Definition get_base_install_path (h : Host) (identifier : string) : string :=
  if dict_mem (environ h) "SOLC_BASE_INSTALL_PATH" then
    match dict_get (environ h) "SOLC_BASE_INSTALL_PATH" with
    | Some root => PosixPath.join root ["solc-" ++ identifier]
    | None => EmptyString (* unreachable: the key was just found *)
    end
  else
    PosixPath.expanduser h
      (PosixPath.join "~" [".py-helios-solc"; "solc-" ++ identifier]).

Definition get_repository_path (h : Host) (identifier : string) : string :=
  PosixPath.join (get_base_install_path h identifier) ["source"].

Definition get_release_zipfile_path (h : Host) (identifier : string) : string :=
  PosixPath.join (get_base_install_path h identifier) ["release.zip"].

Definition get_extract_path (h : Host) (identifier : string) : string :=
  PosixPath.join (get_base_install_path h identifier) ["bin"].

Definition get_executable_path (h : Host) (identifier : string) : string :=
  let extract_path := get_extract_path h identifier in
  PosixPath.join extract_path ["solc"].

Definition get_build_dir (h : Host) (identifier : string) : string :=
  let repository_path := get_repository_path h identifier in
  PosixPath.join repository_path ["build"].

Definition get_built_executable_path (h : Host) (identifier : string) : string :=
  let build_dir := get_build_dir h identifier in
  PosixPath.join build_dir ["solc"; "solc"].

(** The six paths derived from the base install path. *)
Definition derived_paths (h : Host) (identifier : string) : list string :=
  [ get_repository_path h identifier;
    get_release_zipfile_path h identifier;
    get_extract_path h identifier;
    get_executable_path h identifier;
    get_build_dir h identifier;
    get_built_executable_path h identifier ].

(** All seven paths of one version identifier. *)
Definition install_paths (h : Host) (identifier : string) : list string :=
  get_base_install_path h identifier :: derived_paths h identifier.

(** What follows the base install path in the seven paths, when the
    base install path does not end with the separator. *)
Definition install_suffixes : list string :=
  [ ""; "/source"; "/release.zip"; "/bin"; "/bin/solc";
    "/source/build"; "/source/build/solc/solc" ].

(** [p] lies strictly below [base]: [base] is a proper prefix of it. *)
Definition strictly_under (base p : string) : Prop :=
  String.prefix base p = true /\ base <> p.

(** Empty, or led by the separator. *)
Definition sep_led (s : string) : Prop :=
  s = "" \/ exists t, s = String "/" t.

Definition demo_host : Host :=
  {| environ := [("SOLC_BASE_INSTALL_PATH", "/opt/solc"); ("PATH", "/usr/bin:/bin")];
     pw_uid_dir := Some "/home/dev";
     pw_name_dir := [];
     sys_platform := "linux" |}.

Definition bsd_host : Host :=
  {| environ := [("HOME", "/home/dev"); ("PATH", "/usr/bin:/bin")];
     pw_uid_dir := Some "/home/dev";
     pw_name_dir := [];
     sys_platform := "freebsd13" |}.

Definition home_host : Host :=
  {| environ := [("HOME", "/home/dev/"); ("PATH", "/usr/bin:/bin")];
     pw_uid_dir := None;
     pw_name_dir := [];
     sys_platform := "darwin" |}.


(* ------------------------------------------------------------------ *)
(** ** Exceptions *)
(* ------------------------------------------------------------------ *)

(** [exceptions.DEFAULT_MESSAGE] *)
Definition DEFAULT_MESSAGE : string := "An error occurred during execution".

(** The exceptions that reach the caller: the built-in ones raised by
    [install.py] and the standard library, and [exceptions.SolcError]. *)
Inductive Exn :=
| KeyError (msg : string)
| ValueError (msg : string)
| OSError (msg : string)
| CalledProcessError (returncode : Z) (cmd : list string)
                     (output : option string) (err_output : option string)
| SolcError (message : string) (command : list string) (return_code : Z)
            (stdin_data stdout_data stderr_data : option string).

Section SolcErrorInit.
(** [force_text] comes from [utils.string]; it is a parameter here. *)
Variable force_text : string -> string.

Definition force_text_maybe (value : option string) : option string :=
  match value with
  | Some v => Some (force_text v)
  | None => None
  end.

(** [SolcError.__init__] *)
Definition SolcError_init (command : list string) (return_code : Z)
    (stdin_data stdout_data stderr_data : option string)
    (message : option string) : Exn :=
  SolcError (match message with Some m => m | None => DEFAULT_MESSAGE end)
            command return_code
            (force_text_maybe stdin_data)
            (force_text_maybe stdout_data)
            (force_text_maybe stderr_data).
End SolcErrorInit.

(* ------------------------------------------------------------------ *)
(** ** The world *)
(* ------------------------------------------------------------------ *)

(** What a Python function hands back. *)
Inductive PyVal :=
| PyNone
| PyBool (b : bool)
| PyInt (n : Z)
| PyStr (s : string)
| PyBytes (s : string).

(** The special values of [subprocess] for a standard stream. *)
Inductive Redirection :=
| R_None                (* inherit the parent's stream *)
| R_PIPE
| R_STDOUT
| R_DEVNULL
| R_Fd (fd : Z).

Inductive KwVal :=
| KwRedirect (r : Redirection)
| KwText (s : string).

Definition kwargs : Type := dict KwVal.

(** What the installer can change.  The host (environment variables,
    password database, platform) is never written by [install.py]; it is
    a parameter of the installer below.

    The output is kept in three logs.  [sys_stdout] holds the lines the
    installer itself has printed: [print] hands them to the stream
    object [sys.stdout], which may keep them in its buffer.  [on_fd1]
    and [on_fd2] hold what child processes have written straight to the
    descriptors 1 and 2 of the installer.  Where the printed lines fall
    among the text on descriptor 1 depends on the buffering, and is not
    part of the world. *)
Record World (FS : Type) := {
  cwd        : string;            (* the process working directory *)
  fs         : FS;
  sys_stdout : list string;       (* printed by the installer, in order *)
  on_fd1     : list string;       (* written by children to descriptor 1 *)
  on_fd2     : list string        (* written by children to descriptor 2 *)
}.
Arguments cwd {FS} _.
Arguments fs {FS} _.
Arguments sys_stdout {FS} _.
Arguments on_fd1 {FS} _.
Arguments on_fd2 {FS} _.

Definition set_cwd {FS} (p : string) (w : World FS) : World FS :=
  {| cwd := p; fs := fs w;
     sys_stdout := sys_stdout w; on_fd1 := on_fd1 w; on_fd2 := on_fd2 w |}.

Definition set_fs {FS} (f : FS) (w : World FS) : World FS :=
  {| cwd := cwd w; fs := f;
     sys_stdout := sys_stdout w; on_fd1 := on_fd1 w; on_fd2 := on_fd2 w |}.

Definition write_stdout {FS} (lines : list string) (w : World FS) : World FS :=
  {| cwd := cwd w; fs := fs w;
     sys_stdout := (sys_stdout w ++ lines)%list;
     on_fd1 := on_fd1 w; on_fd2 := on_fd2 w |}.

Definition write_fd1 {FS} (text : list string) (w : World FS) : World FS :=
  {| cwd := cwd w; fs := fs w;
     sys_stdout := sys_stdout w;
     on_fd1 := (on_fd1 w ++ text)%list; on_fd2 := on_fd2 w |}.

Definition write_fd2 {FS} (text : list string) (w : World FS) : World FS :=
  {| cwd := cwd w; fs := fs w;
     sys_stdout := sys_stdout w;
     on_fd1 := on_fd1 w; on_fd2 := (on_fd2 w ++ text)%list |}.

(** A child process writes to its two streams in some interleaving. *)
Inductive Stream := ChildOut | ChildErr.

Record Completed (FS : Type) := {
  returncode_of : Z;
  chunks        : list (Stream * string);
  fs_after      : FS
}.
Arguments returncode_of {FS} _.
Arguments chunks {FS} _.
Arguments fs_after {FS} _.

Inductive Spawned (FS : Type) :=
| NotStarted (msg : string)       (* the program could not be executed *)
| Exited (c : Completed FS).
Arguments NotStarted {FS} _.
Arguments Exited {FS} _.

(** The operating system as the installer sees it.  File-system calls
    answer for a path in a world; the failing ones give the message of
    the [OSError].  [getcwd_failure] and [chdir_failure] say when
    [os.getcwd()] and [os.chdir(path)] fail (a directory that was
    removed, or that may not be entered), and with which message.
    [os_exec] is the behaviour of the external programs: an arbitrary
    function of the command, the keyword arguments of [Popen] and the
    world at launch.  A child can leave any file system behind, the
    directory its parent works in included, but cannot move the
    parent to another directory. *)
Class OS (FS : Type) := {
  os_path_exists : string -> World FS -> bool;
  os_path_isfile : string -> World FS -> bool;
  os_access_x    : string -> World FS -> bool;
  os_makedirs    : string -> World FS -> string + FS;
  os_stat_mode   : string -> World FS -> string + Z;
  os_chmod       : string -> Z -> World FS -> string + FS;
  os_symlink     : string -> string -> World FS -> string + FS;
  getcwd_failure : World FS -> option string;
  chdir_failure  : string -> World FS -> option string;
  os_exec        : list string -> kwargs -> World FS -> Spawned FS
}.

(** The system calls made that change something when they succeed, and
    the processes started (with the exit status, when the program
    ran).  A call is logged whether it succeeds or fails. *)
Inductive Event :=
| EvSpawn (cmd : list string) (status : option Z)
| EvMakedirs (path : string)
| EvChmod (path : string) (mode : Z)
| EvSymlink (src dst : string)
| EvChdir (path : string).

(* ------------------------------------------------------------------ *)
(** ** Computations: state, exceptions and the event log *)
(* ------------------------------------------------------------------ *)

Inductive Result (A : Type) :=
| Return (a : A)
| Raise (e : Exn).
Arguments Return {A} _.
Arguments Raise {A} _.

Record Run (FS A : Type) := {
  result : Result A;
  final  : World FS;
  events : list Event
}.
Arguments result {FS A} _.
Arguments final {FS A} _.
Arguments events {FS A} _.

Definition M (FS A : Type) : Type := World FS -> Run FS A.

Definition ret {FS A} (a : A) : M FS A :=
  fun w => {| result := Return a; final := w; events := [] |}.

Definition raise {FS A} (e : Exn) : M FS A :=
  fun w => {| result := Raise e; final := w; events := [] |}.

Definition bind {FS A B} (m : M FS A) (k : A -> M FS B) : M FS B :=
  fun w =>
    let r := m w in
    match result r with
    | Return a =>
        let r' := k a (final r) in
        {| result := result r'; final := final r';
           events := (events r ++ events r')%list |}
    | Raise e =>
        {| result := Raise e; final := final r; events := events r |}
    end.

(** [try: m finally: fin]: [fin] runs on both exits of [m]; an exception
    of [fin] replaces the outcome of [m]. *)
Definition try_finally {FS A} (m : M FS A) (fin : M FS unit) : M FS A :=
  fun w =>
    let r := m w in
    let r' := fin (final r) in
    {| result := match result r' with
                 | Return _ => result r
                 | Raise e => Raise e
                 end;
       final := final r';
       events := (events r ++ events r')%list |}.

Declare Scope py_scope.
Delimit Scope py_scope with py.
Notation "x <- m ;; k" := (bind m (fun x => k))
  (at level 61, m at next level, right associativity) : py_scope.
Notation "m ;; k" := (bind m (fun _ => k))
  (at level 61, right associativity) : py_scope.
Local Open Scope py_scope.

(** A call that only looks at the world. *)
Definition reading {FS A} (f : World FS -> Result A) : M FS A :=
  fun w => {| result := f w; final := w; events := [] |}.

(** A file-system call that changes the file system or fails. *)
Definition mutating {FS} (ev : Event) (op : World FS -> string + FS) : M FS unit :=
  fun w =>
    match op w with
    | inl msg => {| result := Raise (OSError msg); final := w; events := [ev] |}
    | inr f => {| result := Return tt; final := set_fs f w; events := [ev] |}
    end.

(** [print(line)]: the line is handed to [sys.stdout]. *)
Definition print {FS} (line : string) : M FS unit :=
  fun w => {| result := Return tt; final := write_stdout [line] w; events := [] |}.

(** [os.getcwd()] and [os.chdir(path)]: the working directory is an
    attribute of the process; both calls raise [OSError] when the system
    refuses, and a refused [os.chdir] leaves the process where it is. *)
Definition os_getcwd {FS} `{OS FS} : M FS string :=
  fun w =>
    match getcwd_failure w with
    | Some msg => {| result := Raise (OSError msg); final := w; events := [] |}
    | None => {| result := Return (cwd w); final := w; events := [] |}
    end.

Definition os_chdir {FS} `{OS FS} (path : string) : M FS unit :=
  fun w =>
    match chdir_failure path w with
    | Some msg =>
        {| result := Raise (OSError msg); final := w;
           events := [EvChdir path] |}
    | None =>
        {| result := Return tt; final := set_cwd path w;
           events := [EvChdir path] |}
    end.

(* ------------------------------------------------------------------ *)
(** ** subprocess.check_call and subprocess.check_output *)
(* ------------------------------------------------------------------ *)

(** Where the text of a child's stream ends up. *)
Inductive Dest := ToStdout | ToStderr | ToCapture | Nowhere.

Definition dest_eqb (a b : Dest) : bool :=
  match a, b with
  | ToStdout, ToStdout | ToStderr, ToStderr
  | ToCapture, ToCapture | Nowhere, Nowhere => true
  | _, _ => false
  end.

(** A file descriptor given for a stream of the child: descriptors 1
    and 2 are those of the installer; any other is outside the streams
    modelled. *)
Definition fd_dest (fd : Z) : Dest :=
  if Z.eqb fd 1 then ToStdout
  else if Z.eqb fd 2 then ToStderr
  else Nowhere.

(** The [stderr] argument of [Popen]: [None] inherits the parent's
    stderr, [STDOUT] follows the child's stdout, a file descriptor is
    written to; a pipe nobody reads and the null device are outside the
    streams modelled. *)
Definition stderr_dest (stderr : Redirection) (out_dest : Dest) : Dest :=
  match stderr with
  | R_None => ToStderr
  | R_STDOUT => out_dest
  | R_Fd fd => fd_dest fd
  | R_PIPE | R_DEVNULL => Nowhere
  end.

(** The [stdout] keyword of [check_call], when there is one. *)
Definition stdout_dest (kw : kwargs) : Dest :=
  match dict_get kw "stdout" with
  | None | Some (KwRedirect R_None) => ToStdout
  | Some (KwRedirect (R_Fd fd)) => fd_dest fd
  | Some _ => Nowhere
  end.

Definition dest_of (out_dest err_dest : Dest) (s : Stream) : Dest :=
  match s with ChildOut => out_dest | ChildErr => err_dest end.

(** The chunks that reach [d], in the order they were written. *)
Definition routed (d out_dest err_dest : Dest) (cs : list (Stream * string))
  : list string :=
  map snd (filter (fun c => dest_eqb (dest_of out_dest err_dest (fst c)) d) cs).

Definition captured (out_dest err_dest : Dest) (cs : list (Stream * string))
  : string :=
  String.concat "" (routed ToCapture out_dest err_dest cs).

(** Everything the child wrote, on both streams, in order. *)
Definition merged (cs : list (Stream * string)) : list string := map snd cs.

(** The world once a child has exited. *)
Definition after_child {FS} (out_dest err_dest : Dest) (c : Completed FS)
    (w : World FS) : World FS :=
  write_fd2 (routed ToStderr out_dest err_dest (chunks c))
    (write_fd1 (routed ToStdout out_dest err_dest (chunks c))
       (set_fs (fs_after c) w)).

Section Installer.

Context {FS : Type} {os : OS FS}.

(** The host the installer runs on. *)
Variable h : Host.

(** [subprocess.check_call(popenargs, stderr=stderr, **kw)]: the child's
    stdout is the parent's unless [kw] redirects it; nothing is
    captured. *)
Definition subprocess_check_call (popenargs : list string)
    (stderr : Redirection) (kw : kwargs) : M FS PyVal :=
  fun w =>
    match os_exec popenargs kw w with
    | NotStarted msg =>
        {| result := Raise (OSError msg); final := w;
           events := [EvSpawn popenargs None] |}
    | Exited c =>
        let out_dest := stdout_dest kw in
        {| result :=
             if Z.eqb (returncode_of c) 0 then Return (PyInt 0)
             else Raise (CalledProcessError (returncode_of c) popenargs None None);
           final := after_child out_dest (stderr_dest stderr out_dest) c w;
           events := [EvSpawn popenargs (Some (returncode_of c))] |}
    end.

(** [subprocess.check_output(popenargs, stderr=stderr, **kw)]: the
    child's stdout is a pipe that is read to the end. *)
Definition subprocess_check_output (popenargs : list string)
    (stderr : Redirection) (kw : kwargs) : M FS PyVal :=
  if dict_mem kw "stdout" then
    raise (ValueError "stdout argument not allowed, it will be overridden.")
  else if dict_mem kw "check" then
    raise (ValueError "check argument not allowed, it will be overridden.")
  else
    fun w =>
      match os_exec popenargs kw w with
      | NotStarted msg =>
          {| result := Raise (OSError msg); final := w;
             events := [EvSpawn popenargs None] |}
      | Exited c =>
          let err_dest := stderr_dest stderr ToCapture in
          let out := captured ToCapture err_dest (chunks c) in
          {| result :=
               if Z.eqb (returncode_of c) 0 then Return (PyBytes out)
               else Raise (CalledProcessError (returncode_of c) popenargs
                             (Some out) None);
             final := after_child ToCapture err_dest c w;
             events := [EvSpawn popenargs (Some (returncode_of c))] |}
      end.

(* ---------------------------------------------------------------- *)
(** ** System utilities *)
(* ---------------------------------------------------------------- *)

(** The context manager [chdir(path)] around [body]. *)
Definition chdir {A} (path : string) (body : M FS A) : M FS A :=
  original_path <- os_getcwd ;;
  try_finally (os_chdir path ;; body) (os_chdir original_path).

Definition get_platform : M FS string :=
  let p := sys_platform h in
  if Str.startswith p "linux" then ret LINUX
  else if String.eqb p OSX then ret OSX
  else if String.eqb p WINDOWS then ret WINDOWS
  else raise (KeyError ("Unknown platform: " ++ p)).

(** The character that [path.strip] removes from an entry of [PATH]. *)
Definition double_quote : ascii := "034"%char.

Definition is_exe (fpath : string) (w : World FS) : bool :=
  os_path_isfile fpath w && os_access_x fpath w.

(** The loop of [is_executable_available] over the entries of [PATH]. *)
Fixpoint search_path (program : string) (paths : list string)
    (w : World FS) : bool :=
  match paths with
  | [] => false
  | path :: rest =>
      let path := Str.strip double_quote path in
      let exe_file := PosixPath.join path [program] in
      if is_exe exe_file w then true else search_path program rest w
  end.

Definition is_executable_available (program : string) : M FS bool :=
  let fpath := PosixPath.dirname program in
  if Str.truthy fpath then
    reading (fun w => Return (is_exe program w))
  else
    match dict_get (environ h) "PATH" with
    | None => raise (KeyError "PATH")
    | Some path_var =>
        reading (fun w =>
          Return (search_path program (Str.split ":"%char path_var) w))
    end.

Definition ensure_path_exists (dir_path : string) : M FS bool :=
  present <- reading (fun w => Return (os_path_exists dir_path w)) ;;
  if negb present then
    mutating (EvMakedirs dir_path) (os_makedirs dir_path) ;;
    ret true
  else ret false.

Definition ensure_parent_dir_exists (path : string) : M FS unit :=
  ensure_path_exists (PosixPath.dirname path) ;;
  ret tt.

(** The progress lines of the process runner. *)
Definition progress_lines (command : list string) (message : option string)
  : list string :=
  let line := "Executing: " ++ Str.join " " command in
  match message with
  | Some m => if Str.truthy m then [m; line] else [line]
  | None => [line]
  end.

(** The lines that open both functions of the runner: the message, when
    there is one, and the command. *)
Definition announce (command : list string) (message : option string)
  : M FS unit :=
  (match message with
   | Some m => if Str.truthy m then print m else ret tt
   | None => ret tt
   end) ;;
  print ("Executing: " ++ Str.join " " command).

Definition check_subprocess_call (command : list string)
    (message : option string) (stderr : Redirection) (proc_kwargs : kwargs)
  : M FS PyVal :=
  announce command message ;;
  subprocess_check_call command R_STDOUT proc_kwargs.

Definition check_subprocess_output (command : list string)
    (message : option string) (stderr : Redirection) (proc_kwargs : kwargs)
  : M FS PyVal :=
  announce command message ;;
  subprocess_check_output command R_STDOUT proc_kwargs.

Definition S_IEXEC : Z := 64.   (* 0o100 *)

Definition chmod_plus_x (executable_path : string) : M FS unit :=
  st_mode <- reading (fun w =>
               match os_stat_mode executable_path w with
               | inl msg => Raise (OSError msg)
               | inr mode => Return mode
               end) ;;
  let mode := Z.lor st_mode S_IEXEC in
  mutating (EvChmod executable_path mode) (os_chmod executable_path mode).

Definition SOLIDITY_GIT_URI : string :=
  "https://github.com/Helios-Protocol/solidity.git".

Definition is_git_repository (path : string) (w : World FS) : bool :=
  let git_dir := PosixPath.join path [".git"] in
  os_path_exists git_dir w.

(* ---------------------------------------------------------------- *)
(** ** Installation primitives *)
(* ---------------------------------------------------------------- *)

Definition clone_command (identifier repository_path : string) : list string :=
  [ "git"; "clone";
    "--recurse-submodules";
    "--branch"; identifier;
    "--depth"; "10";
    SOLIDITY_GIT_URI;
    repository_path ].

Definition clone_solidity_repository (identifier : string) : M FS PyVal :=
  git <- is_executable_available "git" ;;
  if negb git then raise (OSError "The `git` is required but was not found")
  else
    let repository_path := get_repository_path h identifier in
    ensure_parent_dir_exists repository_path ;;
    let command := clone_command identifier repository_path in
    check_subprocess_call command
      (Some ("Checking out solidity repository @ " ++ identifier))
      R_STDOUT [].

Definition initialize_repository_submodules (identifier : string) : M FS PyVal :=
  git <- is_executable_available "git" ;;
  if negb git then raise (OSError "The `git` is required but was not found")
  else
    let repository_path := get_repository_path h identifier in
    let command := ["git"; "submodule"; "update"; "--init"; "--recursive"] in
    check_subprocess_call command
      (Some ("Initializing repository submodules @ " ++ repository_path))
      R_STDOUT [] ;;
    ret PyNone.

Definition download_uri_of (identifier : string) : string :=
  "https://github.com/Helios-Protocol/solidity/releases/download/"
    ++ identifier ++ "/solc-static-linux".

Definition download_static_release (identifier : string) : M FS PyVal :=
  let download_uri := download_uri_of identifier in
  let static_binary_path := get_executable_path h identifier in
  ensure_parent_dir_exists static_binary_path ;;
  let command := ["wget"; download_uri; "-c"; "-O"; static_binary_path] in
  check_subprocess_call command
    (Some ("Downloading static linux binary from " ++ download_uri))
    R_STDOUT [].

Definition install_deps_command (repository_path : string) : list string :=
  ["sh"; PosixPath.join repository_path ["scripts"; "install_deps.sh"]].

Definition install_solc_dependencies (identifier : string) : M FS PyVal :=
  let repository_path := get_repository_path h identifier in
  git <- reading (fun w => Return (is_git_repository repository_path w)) ;;
  if negb git then
    raise (OSError ("Git repository not found @ " ++ repository_path))
  else
    chdir repository_path
      (let install_deps_script_path :=
         PosixPath.join repository_path ["scripts"; "install_deps.sh"] in
       check_subprocess_call ["sh"; install_deps_script_path]
         (Some ("Running dependency installation script `install_deps.sh` @ "
                  ++ install_deps_script_path))
         R_STDOUT []).

Definition linux_success_line (executable_path : string) : string :=
  "solc successfully installed at: " ++ executable_path.

Definition install_solc_from_static_linux (identifier : string) : M FS PyVal :=
  download_static_release identifier ;;
  let executable_path := get_executable_path h identifier in
  chmod_plus_x executable_path ;;
  let check_version_command := [executable_path; "--version"] in
  check_subprocess_output check_version_command
    (Some ("Checking installed executable version @ " ++ executable_path))
    R_STDOUT [] ;;
  print (linux_success_line executable_path) ;;
  ret PyNone.

Definition cmake_command : list string := ["cmake"; ".."].
Definition make_command : list string := ["make"].

Definition build_solc_from_source (identifier : string) : M FS PyVal :=
  git <- reading (fun w =>
           Return (is_git_repository (get_repository_path h identifier) w)) ;;
  (if negb git then clone_solidity_repository identifier else ret PyNone) ;;
  let build_dir := get_build_dir h identifier in
  ensure_path_exists build_dir ;;
  chdir build_dir
    (check_subprocess_call cmake_command
       (Some "Running cmake build command") R_STDOUT [] ;;
     check_subprocess_call make_command
       (Some "Running make command") R_STDOUT []) ;;
  let built_executable_path := get_built_executable_path h identifier in
  chmod_plus_x built_executable_path ;;
  let executable_path := get_executable_path h identifier in
  ensure_parent_dir_exists executable_path ;;
  mutating (EvSymlink built_executable_path executable_path)
           (os_symlink built_executable_path executable_path) ;;
  chmod_plus_x executable_path ;;
  ret PyNone.

Definition source_success_line (executable_path : string) : string :=
  "Succesfully installed solc @ `" ++ executable_path ++ "`".

Definition install_from_static_linux (identifier : string) : M FS PyVal :=
  install_solc_from_static_linux identifier ;;
  let executable_path := get_executable_path h identifier in
  print (source_success_line executable_path) ;;
  ret PyNone.

Definition install_v100_5_12_linux : M FS PyVal :=
  install_solc_from_static_linux V100_5_12.
Definition install_v100_5_15_linux : M FS PyVal :=
  install_solc_from_static_linux V100_5_15.

Definition install_from_source (identifier : string) : M FS PyVal :=
  git <- reading (fun w =>
           Return (is_git_repository (get_repository_path h identifier) w)) ;;
  (if negb git then clone_solidity_repository identifier else ret PyNone) ;;
  install_solc_dependencies identifier ;;
  build_solc_from_source identifier ;;
  let executable_path := get_executable_path h identifier in
  print (source_success_line executable_path) ;;
  ret PyNone.

Definition install_v100_5_12_osx : M FS PyVal := install_from_source V100_5_12.
Definition install_v100_5_15_osx : M FS PyVal := install_from_source V100_5_15.

Definition INSTALL_FUNCTIONS : dict (dict (M FS PyVal)) :=
  [ (LINUX, [ (V100_5_12, install_v100_5_12_linux);
              (V100_5_15, install_v100_5_15_linux) ]);
    (OSX,   [ (V100_5_12, install_v100_5_12_osx);
              (V100_5_15, install_v100_5_15_osx) ]) ].

Definition unsupported_platform_message (platform : string) : string :=
  "Installation of solidity is not supported on your platform (" ++ platform
    ++ "). Supported platforms are: "
    ++ Str.join ", " (sorted (dict_keys INSTALL_FUNCTIONS)).

Definition unsupported_version_message (identifier : string)
    (versions : dict (M FS PyVal)) : string :=
  "Installation of solidity==" ++ identifier
    ++ " is not supported.  Must be one of "
    ++ Str.join ", " (sorted (dict_keys versions)).

(** [install_solc(identifier, platform=None)].  The two membership
    tests and the two subscripts of the source are the two lookups. *)
Definition install_solc (identifier : string) (platform : option string)
  : M FS PyVal :=
  platform <- match platform with
              | None => get_platform
              | Some p => ret p
              end ;;
  match dict_get INSTALL_FUNCTIONS platform with
  | None => raise (ValueError (unsupported_platform_message platform))
  | Some versions =>
      match dict_get versions identifier with
      | None => raise (ValueError (unsupported_version_message identifier versions))
      | Some install_fn =>
          install_fn ;;
          ret PyNone
      end
  end.

End Installer.

(* ------------------------------------------------------------------ *)
(** ** Statements about runs *)
(* ------------------------------------------------------------------ *)

(** [wp m Q w]: the run of [m] from [w] ends in a result, a world and a
    list of events that satisfy [Q]. *)
Definition wp {FS A} (m : M FS A)
    (Q : Result A -> World FS -> list Event -> Prop) (w : World FS) : Prop :=
  Q (result (m w)) (final (m w)) (events (m w)).

(** A process that ran and exited nonzero shows in the result: the
    exception carries its command and its exit status. *)
Definition fails_fast {FS A} (r : Run FS A) : Prop :=
  forall cmd rc, In (EvSpawn cmd (Some rc)) (events r) -> rc <> 0%Z ->
    exists out, result r = Raise (CalledProcessError rc cmd out None).

(** [flat P R m], for a computation that does not change directory:
    every run of [m] leaves the working directory as it was, logs only
    events in [P], raises only exceptions in [R], and fails fast. *)
Definition flat {FS A} (P : Event -> Prop) (R : Exn -> Prop) (m : M FS A) : Prop :=
  forall w,
    cwd (final (m w)) = cwd w
    /\ Forall P (events (m w))
    /\ (forall e, result (m w) = Raise e -> R e)
    /\ fails_fast (m w).

(** The directory [home] could not be entered again, in some state, and
    the [OSError] of that [os.chdir] is how the run ended. *)
Definition restore_failed {FS} `{OS FS} {A} (home : string) (r : Run FS A)
  : Prop :=
  exists w' msg,
    chdir_failure home w' = Some msg /\ result r = Raise (OSError msg).

(** A process that ran and exited nonzero shows in the result, unless
    the way back to [home] failed after it. *)
Definition fails_fast_from {FS} `{OS FS} {A} (home : string) (r : Run FS A)
  : Prop :=
  forall cmd rc, In (EvSpawn cmd (Some rc)) (events r) -> rc <> 0%Z ->
    (exists out, result r = Raise (CalledProcessError rc cmd out None))
    \/ restore_failed home r.

(** [sound P R m], for a computation that may work in another directory
    for a while: every run of [m] logs only events in [P] and raises
    only exceptions in [R]; it leaves the working directory as it was
    and fails fast, unless the [os.chdir] back to that directory
    failed. *)
Definition sound {FS} `{OS FS} {A} (P : Event -> Prop) (R : Exn -> Prop)
    (m : M FS A) : Prop :=
  forall w,
    (cwd (final (m w)) = cwd w \/ restore_failed (cwd w) (m w))
    /\ Forall P (events (m w))
    /\ (forall e, result (m w) = Raise e -> R e)
    /\ fails_fast_from (cwd w) (m w).

(** The directory [home] can be entered in every state. *)
Definition can_always_enter {FS} `{OS FS} (home : string) : Prop :=
  forall w', chdir_failure home w' = None.

(** The events that start the command [git clone]. *)
Definition is_clone_spawn (e : Event) : bool :=
  match e with
  | EvSpawn ("git" :: "clone" :: _) _ => true
  | _ => false
  end.

Definition is_spawn (e : Event) : bool :=
  match e with
  | EvSpawn _ _ => true
  | _ => false
  end.

Definition is_symlink (e : Event) : bool :=
  match e with
  | EvSymlink _ _ => true
  | _ => false
  end.

Definition is_value_error (e : Exn) : bool :=
  match e with
  | ValueError _ => true
  | _ => false
  end.

(** Every run of [m] that returns has written [line] last. *)
Definition concludes {FS A} (line : string) (m : M FS A) : Prop :=
  forall w v, result (m w) = Return v ->
    exists pre, sys_stdout (final (m w)) = (pre ++ [line])%list.

Definition any_event : Event -> Prop := fun _ => True.
Definition any_exn : Exn -> Prop := fun _ => True.

Definition not_clone (e : Event) : Prop := is_clone_spawn e = false.
Definition not_symlink (e : Event) : Prop := is_symlink e = false.
Definition not_value_error (e : Exn) : Prop := is_value_error e = false.

Definition not_spawn (e : Event) : Prop := is_spawn e = false.

(** No run of [m] in which a process exited nonzero has made a link. *)
Definition no_link_after_failure {FS A} (m : M FS A) : Prop :=
  forall w cmd rc,
    rc <> 0%Z -> In (EvSpawn cmd (Some rc)) (events (m w)) ->
    Forall not_symlink (events (m w)).

(** An exception of [check_call]: no output comes with it. *)
Definition carries_no_output (e : Exn) : Prop :=
  match e with
  | CalledProcessError _ _ out err => out = None /\ err = None
  | _ => True
  end.

(* ------------------------------------------------------------------ *)
(** ** A small operating system to run the installer on *)
(* ------------------------------------------------------------------ *)

Module Toy.

(** Paths that exist, with their mode; the first entry of a path
    counts. *)
Definition ToyFS : Type := dict Z.

Definition exists_ (p : string) (w : World ToyFS) : bool := dict_mem (fs w) p.

Definition access_x (p : string) (w : World ToyFS) : bool :=
  match dict_get (fs w) p with
  | Some m => negb (Z.eqb (Z.land m 73) 0)
  | None => false
  end.

Definition makedirs (p : string) (w : World ToyFS) : string + ToyFS :=
  if dict_mem (fs w) p then inl ("File exists: " ++ p)
  else inr ((p, 493%Z) :: fs w).

Definition stat_mode (p : string) (w : World ToyFS) : string + Z :=
  match dict_get (fs w) p with
  | Some m => inr m
  | None => inl ("No such file or directory: " ++ p)
  end.

Definition chmod (p : string) (m : Z) (w : World ToyFS) : string + ToyFS :=
  if dict_mem (fs w) p then inr ((p, m) :: fs w)
  else inl ("No such file or directory: " ++ p).

Definition symlink (src dst : string) (w : World ToyFS) : string + ToyFS :=
  if dict_mem (fs w) dst then inl ("File exists: " ++ dst)
  else inr ((dst, 511%Z) :: fs w).

(** The root directory is always there; any other directory can be
    entered, and worked in, as long as it exists. *)
Definition enter (p : string) (w : World ToyFS) : option string :=
  if String.eqb p "/" || dict_mem (fs w) p then None
  else Some ("No such file or directory: " ++ p).

Definition toy_os (exec : list string -> kwargs -> World ToyFS -> Spawned ToyFS)
  : OS ToyFS :=
  {| os_path_exists := exists_;
     os_path_isfile := exists_;
     os_access_x := access_x;
     os_makedirs := makedirs;
     os_stat_mode := stat_mode;
     os_chmod := chmod;
     os_symlink := symlink;
     getcwd_failure := fun w => enter (cwd w) w;
     chdir_failure := enter;
     os_exec := exec |}.

Definition exited (rc : Z) (cs : list (Stream * string)) (f : ToyFS)
  : Spawned ToyFS :=
  Exited {| returncode_of := rc; chunks := cs; fs_after := f |}.

(** Tools that do their job: [git clone] leaves a checkout at its last
    argument, [wget] a file at the argument of [-O], [make] the
    compiler under the working directory. *)
Definition tools (cmd : list string) (kw : kwargs) (w : World ToyFS)
  : Spawned ToyFS :=
  match cmd with
  | "git" :: "clone" :: rest =>
      let repo := last rest "" in
      exited 0 [(ChildErr, "Cloning into " ++ repo)]
             ((repo ++ "/.git", 493%Z) :: (repo, 493%Z) :: fs w)
  | ["wget"; _; _; _; target] =>
      exited 0 [(ChildErr, "saved")] ((target, 420%Z) :: fs w)
  | ["make"] =>
      exited 0 [(ChildOut, "[100%] Built target solc")]
             ((cwd w ++ "/solc/solc", 420%Z) :: fs w)
  | [_; "--version"] =>
      exited 0 [(ChildOut, "solc, the solidity compiler")] (fs w)
  | _ => exited 0 [] (fs w)
  end.

(** The same tools, with a compile step that fails. *)
Definition tools_make_fails (cmd : list string) (kw : kwargs)
    (w : World ToyFS) : Spawned ToyFS :=
  match cmd with
  | ["make"] =>
      exited 2 [(ChildOut, "[ 10%] Building"); (ChildErr, "error: boom")] (fs w)
  | _ => tools cmd kw w
  end.

(** The same tools, with a dependency script that clears the
    checkout's metadata directory away. *)
Definition tools_script_cleans (cmd : list string) (kw : kwargs)
    (w : World ToyFS) : Spawned ToyFS :=
  match cmd with
  | ["sh"; _] =>
      exited 0 [] (filter (fun e => negb (Str.endswith (fst e) "/.git")) (fs w))
  | _ => tools cmd kw w
  end.


(** The same tools, with a compile step that fails after it has removed
    the directory the installer was started in. *)
Definition tools_make_fails_workdir_gone (cmd : list string) (kw : kwargs)
    (w : World ToyFS) : Spawned ToyFS :=
  match cmd with
  | ["make"] =>
      exited 2 [(ChildErr, "error: boom")]
             (filter (fun e => negb (String.eqb (fst e) "/work")) (fs w))
  | _ => tools cmd kw w
  end.

(** A command that writes to both streams and exits with status 3. *)
Definition tools_noisy_failure (cmd : list string) (kw : kwargs)
    (w : World ToyFS) : Spawned ToyFS :=
  exited 3 [(ChildOut, "out1;"); (ChildErr, "err1;"); (ChildOut, "out2;")] (fs w).

(** A machine with the given files, at work in [/work]. *)
Definition fresh (files : ToyFS) : World ToyFS :=
  {| cwd := "/work"; fs := (files ++ [("/work", 493%Z)])%list;
     sys_stdout := []; on_fd1 := []; on_fd2 := [] |}.

(** A machine with [git] and nothing installed yet. *)
Definition clean_box : World ToyFS :=
  fresh [("/usr/bin/git", 493%Z)].

(** A machine on which an earlier attempt under [home_host] left a
    checkout behind. *)
Definition box_with_checkout : World ToyFS :=
  fresh
    [ ("/home/dev/.py-helios-solc/solc-v100.5.12/source/.git", 493%Z);
      ("/home/dev/.py-helios-solc/solc-v100.5.12/source", 493%Z);
      ("/usr/bin/git", 493%Z) ].

End Toy.

(* ------------------------------------------------------------------ *)
(** ** The commands of the strategies, and the entry point *)
(* ------------------------------------------------------------------ *)

(** The command of [download_static_release]. *)
Definition download_command (h : Host) (identifier : string) : list string :=
  [ "wget"; download_uri_of identifier; "-c"; "-O";
    get_executable_path h identifier ].

(** The command of the check at the end of
    [install_solc_from_static_linux]. *)
Definition version_command (h : Host) (identifier : string) : list string :=
  [ get_executable_path h identifier; "--version" ].

(** The command of [initialize_repository_submodules]. *)
Definition submodule_command : list string :=
  ["git"; "submodule"; "update"; "--init"; "--recursive"].

(** How the script ends when no exception escapes: it runs to its end,
    or [sys.exit(status)] was called. *)
Inductive ScriptEnd :=
| Finished
| SysExit (status : Z).

Definition usage_line : string :=
  "Invocation error.  Should be invoked as `./install_solc.py <release-tag>`".

Section Entry.

Context {FS : Type} {os : OS FS}.
Variable h : Host.
Local Open Scope py_scope.

(** The block under [if __name__ == "__main__"], for a given
    [sys.argv]. *)
Definition main (argv : list string) : M FS ScriptEnd :=
  match nth_error argv 1 with
  | None =>
      print usage_line ;;
      ret (SysExit 1)
  | Some identifier =>
      install_solc h identifier None ;;
      ret Finished
  end.

End Entry.

(* ------------------------------------------------------------------ *)
(** ** More statements about runs *)
(* ------------------------------------------------------------------ *)

(** Every run of [m] that returns has logged an event in [P]. *)
Definition logs_on_return {FS A} (P : Event -> Prop) (m : M FS A) : Prop :=
  forall w v, result (m w) = Return v -> Exists P (events (m w)).

(** The events of [download_static_release]. *)
Definition download_event (h : Host) (identifier : string) (e : Event) : Prop :=
  match e with
  | EvMakedirs p => p = PosixPath.dirname (get_executable_path h identifier)
  | EvSpawn cmd _ => cmd = download_command h identifier
  | EvChmod _ _ | EvSymlink _ _ | EvChdir _ => False
  end.

(** On this operating system a directory that [os.makedirs] has made
    exists afterwards. *)
Definition makedirs_makes {FS} {os : OS FS} (p : string) : Prop :=
  forall (w : World FS) (f : FS),
    os_makedirs p w = inr f -> os_path_exists p (set_fs f w) = true.

(** The events of the static install: the directory of the executable,
    the download, the mode of the executable, the version check. *)
Definition static_install_event (h : Host) (identifier : string) (e : Event)
  : Prop :=
  match e with
  | EvMakedirs p => p = PosixPath.dirname (get_executable_path h identifier)
  | EvSpawn cmd _ =>
      cmd = download_command h identifier \/ cmd = version_command h identifier
  | EvChmod p _ => p = get_executable_path h identifier
  | EvSymlink _ _ => False
  | EvChdir _ => False
  end.

(** The exceptions of the static install: an [OSError], or the
    [CalledProcessError] of the download (no output) or of the version
    check (with the captured output). *)
Definition static_install_exn (h : Host) (identifier : string) (e : Exn)
  : Prop :=
  match e with
  | OSError _ => True
  | CalledProcessError _ cmd out err =>
      err = None
      /\ ((cmd = download_command h identifier /\ out = None)
          \/ (cmd = version_command h identifier /\ exists o, out = Some o))
  | KeyError _ | ValueError _ | SolcError _ _ _ _ _ _ => False
  end.

(** The exceptions of what follows the download: an [OSError], or the
    [CalledProcessError] of the version check. *)
Definition version_check_exn (h : Host) (identifier : string) (e : Exn) : Prop :=
  match e with
  | OSError _ => True
  | CalledProcessError _ cmd _ _ => cmd = version_command h identifier
  | KeyError _ | ValueError _ | SolcError _ _ _ _ _ _ => False
  end.

(** Tools with a download that fails, and tools with a downloaded
    binary that does not run. *)
Definition tools_download_fails (cmd : list string) (kw : kwargs)
    (w : World Toy.ToyFS) : Spawned Toy.ToyFS :=
  match cmd with
  | "wget" :: _ => Toy.exited 4 [(ChildErr, "failed: Connection refused.")] (fs w)
  | _ => Toy.tools cmd kw w
  end.

Definition tools_version_fails (cmd : list string) (kw : kwargs)
    (w : World Toy.ToyFS) : Spawned Toy.ToyFS :=
  match cmd with
  | [_; "--version"] =>
      Toy.exited 126 [(ChildErr, "cannot execute binary file")] (fs w)
  | _ => Toy.tools cmd kw w
  end.

(** The events of the last part of the build step: a link, if any, is
    the one from the executable path to the built executable. *)
Definition link_event (h : Host) (identifier : string) (e : Event) : Prop :=
  match e with
  | EvSymlink src dst =>
      src = get_built_executable_path h identifier
      /\ dst = get_executable_path h identifier
  | _ => True
  end.

(** The exit status of a program that ran. *)
Definition status_of {FS} (s : Spawned FS) : option Z :=
  match s with
  | NotStarted _ => None
  | Exited c => Some (returncode_of c)
  end.

(** A machine without [git]. *)
Definition bare_box : World Toy.ToyFS := Toy.fresh [].

Definition git_missing_error : Exn :=
  OSError "The `git` is required but was not found".

(** The calls of the source strategy: the directories it may call
    [os.makedirs] with, the four commands it may start, the two files
    it may call [os.chmod] on and the one link it may ask for. *)
Definition source_install_event (h : Host) (identifier : string) (e : Event)
  : Prop :=
  match e with
  | EvMakedirs p =>
      p = PosixPath.dirname (get_repository_path h identifier)
      \/ p = get_build_dir h identifier
      \/ p = PosixPath.dirname (get_executable_path h identifier)
  | EvSpawn cmd _ =>
      cmd = clone_command identifier (get_repository_path h identifier)
      \/ cmd = install_deps_command (get_repository_path h identifier)
      \/ cmd = cmake_command
      \/ cmd = make_command
  | EvChmod p _ =>
      p = get_built_executable_path h identifier
      \/ p = get_executable_path h identifier
  | EvSymlink src dst =>
      src = get_built_executable_path h identifier
      /\ dst = get_executable_path h identifier
  | EvChdir _ => True
  end.

(** The events that do not launch the submodule update. *)
Definition no_submodule_update (e : Event) : Prop :=
  forall s, e <> EvSpawn submodule_command s.
(* ================================================================== *)
(** * Properties *)
(* ================================================================== *)

(* ------------------------------------------------------------------ *)
(** ** Strings and paths *)
(* ------------------------------------------------------------------ *)

Lemma append_assoc (a b c : string) : (a ++ b) ++ c = a ++ (b ++ c).
Proof. induction a as [|x a IH]; simpl; [reflexivity | now rewrite IH]. Qed.

Lemma append_empty_r (a : string) : a ++ "" = a.
Proof. induction a as [|x a IH]; simpl; [reflexivity | now rewrite IH]. Qed.

Lemma append_cancel_l (p x y : string) : p ++ x = p ++ y -> x = y.
Proof.
  induction p as [|c p IH]; simpl; intros H; [exact H |].
  injection H as H. now apply IH.
Qed.

Lemma append_nonempty_r (a b : string) : b <> "" -> a ++ b <> "".
Proof. destruct a; simpl; [trivial | discriminate]. Qed.

Lemma length_append (a b : string) :
  String.length (a ++ b) = String.length a + String.length b.
Proof. induction a as [|x a IH]; simpl; [reflexivity | now rewrite IH]. Qed.

Lemma append_proper_extension (a t : string) : t <> "" -> a <> a ++ t.
Proof.
  intros Ht E. apply (f_equal String.length) in E.
  rewrite length_append in E. destruct t; [now apply Ht | simpl in E; lia].
Qed.

Lemma prefix_append (a t : string) : String.prefix a (a ++ t) = true.
Proof.
  induction a as [|x a IH]; simpl.
  - now destruct t.
  - destruct (ascii_dec x x) as [_|N]; [exact IH | now elim N].
Qed.

Lemma truthy_append_r (a b : string) : Str.truthy b = true -> Str.truthy (a ++ b) = true.
Proof. destruct a; simpl; auto. Qed.

Lemma truthy_nonempty (s : string) : Str.truthy s = true <-> s <> "".
Proof. destruct s; simpl; split; congruence. Qed.

(** Only the end of a string decides whether it ends with the separator. *)
Lemma endswith_sep_append (a b : string) :
  b <> "" -> Str.endswith (a ++ b) "/" = Str.endswith b "/".
Proof.
  intros Hb. induction a as [|x a IH]; [reflexivity |].
  change (String x a ++ b) with (String x (a ++ b)).
  cbn [Str.endswith]. rewrite IH.
  replace (String.eqb (String x (a ++ b)) "/") with false; [reflexivity |].
  symmetry. apply String.eqb_neq. intros E. injection E as _ E.
  now apply (append_nonempty_r a b Hb).
Qed.

Lemma endswith_sep_contains (s : string) :
  Str.endswith s "/" = true -> Str.contains "/" s = true.
Proof.
  induction s as [|x s IH]; [discriminate |].
  cbn [Str.endswith Str.contains]. intros H.
  apply orb_true_iff in H as [H | H].
  - apply String.eqb_eq in H. injection H as -> _. reflexivity.
  - rewrite (IH H). now rewrite orb_true_r.
Qed.

Lemma contains_append (c : ascii) (a b : string) :
  Str.contains c (a ++ b) = Str.contains c a || Str.contains c b.
Proof.
  induction a as [|x a IH]; simpl; [reflexivity |].
  now rewrite IH, orb_assoc.
Qed.

Lemma join_step_relative (path b : string) :
  Str.startswith b "/" = false ->
  PosixPath.join_step path b = path ++ glue path ++ b.
Proof.
  intros Hb. unfold PosixPath.join_step, glue, PosixPath.sep. rewrite Hb.
  destruct (negb (Str.truthy path) || Str.endswith path "/"); reflexivity.
Qed.

Lemma join_step_extends (path b : string) :
  Str.startswith b "/" = false -> b <> "" ->
  exists t, PosixPath.join_step path b = path ++ t /\ t <> "".
Proof.
  intros Hb Hne. exists (glue path ++ b). split.
  - now apply join_step_relative.
  - now apply append_nonempty_r.
Qed.

(** A path that does not end with the separator gets one. *)
Lemma join_step_separated (path b : string) :
  Str.startswith b "/" = false -> path <> "" ->
  Str.endswith path "/" = false ->
  PosixPath.join_step path b = path ++ "/" ++ b.
Proof.
  intros Hb Hp He. rewrite join_step_relative by exact Hb.
  unfold glue. rewrite He. apply truthy_nonempty in Hp. now rewrite Hp.
Qed.

Lemma substring_all (s : string) : String.substring 0 (String.length s) s = s.
Proof. induction s as [|c s IH]; simpl; [reflexivity | now rewrite IH]. Qed.

Lemma from_one (c : ascii) (s : string) : Str.from 1 (String c s) = s.
Proof.
  unfold Str.from. simpl String.length.
  replace (S (String.length s) - 1) with (String.length s) by lia.
  simpl. apply substring_all.
Qed.

(** The base install path is a fixed prefix, then [solc-], then the
    identifier. *)
Lemma base_install_path_shape (h : Host) :
  exists P, forall V, get_base_install_path h V = P ++ "solc-" ++ V.
Proof.
  unfold get_base_install_path, dict_mem.
  destruct (dict_get (environ h) "SOLC_BASE_INSTALL_PATH") as [root|].
  - exists (root ++ glue root). intros V.
    cbn [PosixPath.join fold_left].
    rewrite join_step_relative by reflexivity.
    now rewrite append_assoc.
  - assert (J : forall V, PosixPath.join "~" [".py-helios-solc"; "solc-" ++ V]
                          = String "~" ("/.py-helios-solc/solc-" ++ V))
      by reflexivity.
    unfold PosixPath.expanduser.
    assert (I : forall V, String.index 1 PosixPath.sep
                            (String "~" ("/.py-helios-solc/solc-" ++ V)) = Some 1)
      by reflexivity.
    destruct (dict_get (environ h) "HOME") as [home|] eqn:EH;
      [| destruct (pw_uid_dir h) as [home|] eqn:EP ].
    1,2: exists (Str.rstrip PosixPath.sep_char home ++ "/.py-helios-solc/");
         intros V; rewrite J, I; cbn [Nat.eqb negb];
         change (Str.startswith (String "~" ("/.py-helios-solc/solc-" ++ V)) "~") with true;
         cbn [negb]; rewrite ?EP, from_one;
         rewrite truthy_append_r by reflexivity;
         now rewrite append_assoc.
    exists "~/.py-helios-solc/". intros V. rewrite J, I. cbn [Nat.eqb].
    change (Str.startswith (String "~" ("/.py-helios-solc/solc-" ++ V)) "~") with true.
    reflexivity.
Qed.

Lemma no_sep_not_endswith (s : string) :
  Str.contains "/" s = false -> Str.endswith s "/" = false.
Proof.
  intros H. destruct (Str.endswith s "/") eqn:E; [| reflexivity].
  apply endswith_sep_contains in E. congruence.
Qed.

Lemma strictly_under_append (base t : string) :
  t <> "" -> strictly_under base (base ++ t).
Proof.
  intros Ht. split; [apply prefix_append | now apply append_proper_extension].
Qed.

(** Joining a relative component keeps a path below the directories it
    was already below. *)
Lemma join_step_below (base path b : string) :
  (exists t, path = base ++ t) ->
  Str.startswith b "/" = false -> b <> "" ->
  exists t, PosixPath.join_step path b = base ++ t /\ t <> "".
Proof.
  intros [t ->] Hb Hne.
  destruct (join_step_extends (base ++ t) b Hb Hne) as (u & -> & Hu).
  exists (t ++ u). split; [apply append_assoc |].
  now apply append_nonempty_r.
Qed.

Lemma join_step_below_weak (base path b : string) :
  (exists t, path = base ++ t) ->
  Str.startswith b "/" = false -> b <> "" ->
  exists t, PosixPath.join_step path b = base ++ t.
Proof.
  intros H Hb Hne. destruct (join_step_below base path b H Hb Hne) as (t & E & _).
  now exists t.
Qed.

Ltac below_base :=
  repeat first
    [ apply join_step_below; [ | reflexivity | discriminate ]
    | apply join_step_below_weak; [ | reflexivity | discriminate ]
    | (exists ""; symmetry; apply append_empty_r) ].

(** C10.  Every derived path (repository, release archive, extraction
    directory, executable, build directory, built executable) has the
    base install path of the same identifier as a proper prefix. *)
Theorem derived_paths_under_base (h : Host) (identifier : string) :
  Forall (strictly_under (get_base_install_path h identifier))
         (derived_paths h identifier).
Proof.
  set (base := get_base_install_path h identifier).
  assert (K : forall p, (exists t, p = base ++ t /\ t <> "") -> strictly_under base p).
  { intros p (t & -> & Ht). now apply strictly_under_append. }
  unfold derived_paths, get_built_executable_path, get_build_dir,
    get_executable_path, get_extract_path, get_release_zipfile_path,
    get_repository_path.
  fold base. cbn [PosixPath.join fold_left].
  repeat constructor; apply K; below_base.
Qed.

Lemma split_at_separator (V1 V2 s1 s2 : string) :
  Str.contains "/" V1 = false -> Str.contains "/" V2 = false ->
  sep_led s1 -> sep_led s2 ->
  V1 ++ s1 = V2 ++ s2 -> V1 = V2.
Proof.
  revert V2. induction V1 as [|a V1 IH]; intros [|b V2] H1 H2 L1 L2 E;
    simpl in *.
  - reflexivity.
  - destruct L1 as [-> | (t & ->)]; [discriminate |].
    injection E as <- _. discriminate.
  - destruct L2 as [-> | (t & ->)]; [discriminate |].
    injection E as -> _. discriminate.
  - injection E as -> E.
    apply orb_false_iff in H1 as [_ H1]. apply orb_false_iff in H2 as [_ H2].
    f_equal. now apply IH.
Qed.

Lemma install_suffixes_sep_led : Forall sep_led install_suffixes.
Proof.
  unfold install_suffixes.
  repeat (apply Forall_cons;
          [ (now left) || (right; eexists; reflexivity) | ]).
  apply Forall_nil.
Qed.

(** With no separator in the identifier, the seven paths are the base
    prefix, [solc-], the identifier and one of seven fixed endings. *)
Lemma install_paths_shape (h : Host) :
  exists P, forall V, Str.contains "/" V = false ->
    install_paths h V = map (fun s => P ++ "solc-" ++ V ++ s) install_suffixes.
Proof.
  destruct (base_install_path_shape h) as (P & HP). exists P. intros V HV.
  unfold install_paths, derived_paths, get_built_executable_path, get_build_dir,
    get_executable_path, get_extract_path, get_release_zipfile_path,
    get_repository_path.
  rewrite HP. set (B := P ++ "solc-" ++ V).
  assert (Bne : forall t, B ++ t <> "").
  { intros t E. apply (f_equal String.length) in E. unfold B in E.
    rewrite !length_append in E. simpl in E. lia. }
  assert (Bend : Str.endswith B "/" = false).
  { unfold B. rewrite endswith_sep_append by discriminate.
    apply no_sep_not_endswith. simpl. exact HV. }
  assert (Bends : forall t, t <> "" -> Str.endswith t "/" = false ->
                            Str.endswith (B ++ t) "/" = false).
  { intros t Ht Et. now rewrite endswith_sep_append. }
  assert (J0 : forall b, Str.startswith b "/" = false ->
                         PosixPath.join_step B b = B ++ "/" ++ b).
  { intros b Hb. apply join_step_separated; auto.
    rewrite <- (append_empty_r B). apply Bne. }
  assert (J1 : forall t b, Str.startswith b "/" = false -> t <> "" ->
                           Str.endswith t "/" = false ->
                           PosixPath.join_step (B ++ t) b = B ++ t ++ "/" ++ b).
  { intros t b Hb Ht Et. rewrite join_step_separated; auto using append_assoc. }
  cbn [PosixPath.join fold_left map install_suffixes].
  rewrite !J0 by reflexivity.
  rewrite !J1 by (reflexivity || discriminate).
  unfold B. rewrite !append_assoc. cbn [String.append].
  rewrite append_empty_r. reflexivity.
Qed.

(** C1, as amended.  For two distinct version identifiers that contain
    no path separator, no path derived from the one (base install path,
    repository, release archive, extraction directory, executable, build
    directory, built executable) equals a path derived from the other. *)
Theorem install_paths_disjoint (h : Host) (V1 V2 : string) :
  Str.contains "/" V1 = false -> Str.contains "/" V2 = false ->
  V1 <> V2 ->
  forall p, In p (install_paths h V1) -> ~ In p (install_paths h V2).
Proof.
  intros H1 H2 Hne p I1 I2.
  destruct (install_paths_shape h) as (P & HP).
  rewrite HP in I1, I2 by assumption.
  apply in_map_iff in I1 as (s1 & <- & S1).
  apply in_map_iff in I2 as (s2 & E & S2).
  apply append_cancel_l in E.
  apply (append_cancel_l "solc-") in E.
  pose proof install_suffixes_sep_led as L.
  rewrite Forall_forall in L.
  apply Hne. symmetry.
  now apply (split_at_separator V2 V1 s2 s1); auto.
Qed.

Lemma install_paths_disjoint_witness :
  ~ In (get_executable_path demo_host V100_5_12)
       (install_paths demo_host V100_5_15).
Proof.
  apply (install_paths_disjoint demo_host V100_5_12 V100_5_15);
    [ reflexivity | reflexivity | discriminate | ].
  do 4 right. left. reflexivity.
Defined.

(** C1, as stated, fails: the identifiers [a] and [a/source] are
    distinct and non-empty, and the base install path of the second is
    the repository path of the first. *)
Lemma install_paths_collide :
  ~ (forall (h : Host) (V1 V2 : string),
       V1 <> "" -> V2 <> "" -> V1 <> V2 ->
       forall p, In p (install_paths h V1) -> ~ In p (install_paths h V2)).
Proof.
  intros H.
  apply (H demo_host "a" "a/source" ltac:(discriminate) ltac:(discriminate)
           ltac:(discriminate) (get_repository_path demo_host "a")).
  - right. left. reflexivity.
  - left. reflexivity.
Qed.


(* ------------------------------------------------------------------ *)
(** ** Rules for runs *)
(* ------------------------------------------------------------------ *)

Section Rules.

Context {FS : Type} {os : OS FS}.
Local Open Scope py_scope.

Lemma wp_ret {A} (a : A) Q (w : World FS) :
  Q (Return a) w [] -> wp (ret a) Q w.
Proof. exact (fun H => H). Qed.

Lemma wp_raise {A} (e : Exn) (Q : Result A -> _) (w : World FS) :
  Q (Raise e) w [] -> wp (raise e) Q w.
Proof. exact (fun H => H). Qed.

Lemma wp_bind {A B} (m : M FS A) (k : A -> M FS B) Q (w : World FS) :
  wp m (fun res w' E =>
          match res with
          | Return a => wp (k a) (fun res' w'' E' => Q res' w'' (E ++ E')%list) w'
          | Raise e => Q (Raise e) w' E
          end) w ->
  wp (bind m k) Q w.
Proof. unfold wp, bind. destruct (result (m w)); exact (fun H => H). Qed.

(** A step of a run, by cases on how the run of its head ends. *)
Lemma wp_bind_run {A B} (m : M FS A) (k : A -> M FS B) Q (w : World FS) :
  (forall a, result (m w) = Return a ->
     wp (k a) (fun res' w'' E' => Q res' w'' (events (m w) ++ E')%list)
        (final (m w))) ->
  (forall e, result (m w) = Raise e ->
     Q (Raise e) (final (m w)) (events (m w))) ->
  wp (bind m k) Q w.
Proof.
  intros Hret Hraise. apply wp_bind. unfold wp at 1.
  destruct (result (m w)) as [a|e]; [now apply Hret | now apply Hraise].
Qed.

Lemma wp_reading {A} (f : World FS -> Result A) Q (w : World FS) :
  Q (f w) w [] -> wp (reading f) Q w.
Proof. exact (fun H => H). Qed.

Lemma wp_print (line : string) Q (w : World FS) :
  Q (Return tt) (write_stdout [line] w) [] -> wp (print line) Q w.
Proof. exact (fun H => H). Qed.

(** The context manager, by cases: [os.getcwd()] fails and nothing
    happens; [path] cannot be entered and the body does not run; the
    body runs in [path].  In the last two cases the way back is tried,
    and when it fails its [OSError] is the outcome. *)
Lemma wp_chdir {A} (path : string) (body : M FS A) Q (w : World FS) :
  (forall msg, getcwd_failure w = Some msg -> Q (Raise (OSError msg)) w []) ->
  (getcwd_failure w = None ->
   forall msg, chdir_failure path w = Some msg ->
     (chdir_failure (cwd w) w = None ->
      Q (Raise (OSError msg)) (set_cwd (cwd w) w)
        [EvChdir path; EvChdir (cwd w)])
     /\ (forall msg', chdir_failure (cwd w) w = Some msg' ->
           Q (Raise (OSError msg')) w [EvChdir path; EvChdir (cwd w)])) ->
  (getcwd_failure w = None -> chdir_failure path w = None ->
   wp body (fun res w' E =>
              (chdir_failure (cwd w) w' = None ->
               Q res (set_cwd (cwd w) w')
                 (EvChdir path :: E ++ [EvChdir (cwd w)])%list)
              /\ (forall msg', chdir_failure (cwd w) w' = Some msg' ->
                    Q (Raise (OSError msg')) w'
                      (EvChdir path :: E ++ [EvChdir (cwd w)])%list))
      (set_cwd path w)) ->
  wp (chdir path body) Q w.
Proof.
  intros Hcwd Henter Hbody.
  unfold wp, chdir, bind, try_finally, os_getcwd, os_chdir.
  destruct (getcwd_failure w) as [msg|] eqn:G; cbn [result final events];
    [now apply Hcwd |].
  destruct (chdir_failure path w) as [msg|] eqn:C; cbn [result final events].
  - destruct (Henter eq_refl msg eq_refl) as [Hok Hko].
    destruct (chdir_failure (cwd w) w) as [msg'|]; cbn [result final events app];
      [now apply Hko | now apply Hok].
  - specialize (Hbody eq_refl eq_refl). unfold wp in Hbody.
    destruct Hbody as [Hok Hko].
    destruct (result (body (set_cwd path w))) as [a|e];
      cbn [result final events];
      destruct (chdir_failure (cwd w) (final (body (set_cwd path w))))
        as [msg'|]; cbn [result final events app];
      first [ now apply Hko | now apply Hok ].
Qed.

Lemma wp_subprocess_check_call cmd stderr kw Q (w : World FS) :
  (forall msg, os_exec cmd kw w = NotStarted msg ->
     Q (Raise (OSError msg)) w [EvSpawn cmd None]) ->
  (forall c, os_exec cmd kw w = Exited c ->
     Q (if Z.eqb (returncode_of c) 0 then Return (PyInt 0)
        else Raise (CalledProcessError (returncode_of c) cmd None None))
       (after_child (stdout_dest kw) (stderr_dest stderr (stdout_dest kw)) c w)
       [EvSpawn cmd (Some (returncode_of c))]) ->
  wp (subprocess_check_call cmd stderr kw) Q w.
Proof.
  intros Hn He. unfold wp, subprocess_check_call.
  destruct (os_exec cmd kw w) as [msg|c]; [now apply Hn | now apply He].
Qed.

Lemma wp_subprocess_check_output cmd stderr kw Q (w : World FS) :
  dict_mem kw "stdout" = false -> dict_mem kw "check" = false ->
  (forall msg, os_exec cmd kw w = NotStarted msg ->
     Q (Raise (OSError msg)) w [EvSpawn cmd None]) ->
  (forall c, os_exec cmd kw w = Exited c ->
     Q (if Z.eqb (returncode_of c) 0
        then Return (PyBytes (captured ToCapture (stderr_dest stderr ToCapture) (chunks c)))
        else Raise (CalledProcessError (returncode_of c) cmd
                      (Some (captured ToCapture (stderr_dest stderr ToCapture) (chunks c)))
                      None))
       (after_child ToCapture (stderr_dest stderr ToCapture) c w)
       [EvSpawn cmd (Some (returncode_of c))]) ->
  wp (subprocess_check_output cmd stderr kw) Q w.
Proof.
  intros K1 K2 Hn He. unfold wp, subprocess_check_output. rewrite K1, K2.
  destruct (os_exec cmd kw w) as [msg|c]; [now apply Hn | now apply He].
Qed.

(** The progress lines are written, and nothing else happens. *)
Lemma wp_announce command message Q (w : World FS) :
  Q (Return tt) (write_stdout (progress_lines command message) w) [] ->
  wp (announce command message) Q w.
Proof.
  unfold wp, announce, progress_lines, bind, print, ret, write_stdout.
  destruct message as [m|]; [destruct (Str.truthy m) |]; cbn;
    rewrite <- ?app_assoc; exact (fun H => H).
Qed.

(* ---------------------------------------------------------------- *)
(** *** Computations that stay in their directory *)

Variables (P : Event -> Prop) (R : Exn -> Prop).

Lemma fails_fast_quiet {A} (res : Result A) (w : World FS) E :
  Forall (fun e => is_spawn e = false) E ->
  fails_fast {| result := res; final := w; events := E |}.
Proof.
  intros HE cmd rc Hin _. rewrite Forall_forall in HE.
  specialize (HE _ Hin). discriminate.
Qed.

(** A computation that starts no process is flat as soon as it keeps
    the working directory, logs events in [P] and raises in [R]. *)
Lemma flat_quiet {A} (m : M FS A) :
  (forall w, cwd (final (m w)) = cwd w
             /\ Forall (fun e => P e /\ is_spawn e = false) (events (m w))
             /\ (forall e, result (m w) = Raise e -> R e)) ->
  flat P R m.
Proof.
  intros H w. destruct (H w) as (C & E & Rr).
  split; [exact C |]. split; [| split; [exact Rr |]].
  - eapply Forall_impl; [| exact E]. now intros e [He _].
  - destruct (m w) as [res w' Ev]. apply fails_fast_quiet.
    eapply Forall_impl; [| exact E]. now intros e [_ He].
Qed.

Lemma flat_ret {A} (a : A) : flat P R (ret (FS := FS) a).
Proof.
  apply flat_quiet. intros w. cbn.
  split; [reflexivity |]. split; [constructor | discriminate].
Qed.

Lemma flat_raise {A} (e : Exn) : R e -> flat P R (raise (FS := FS) (A := A) e).
Proof.
  intros He. apply flat_quiet. intros w. cbn.
  split; [reflexivity |]. split; [constructor |]. now intros e' [= <-].
Qed.

Lemma flat_bind {A B} (m : M FS A) (k : A -> M FS B) :
  flat P R m -> (forall a, flat P R (k a)) -> flat P R (bind m k).
Proof.
  intros Hm Hk w. destruct (Hm w) as (C1 & E1 & R1 & F1).
  unfold bind. destruct (result (m w)) as [a|e] eqn:Er; cbn.
  - destruct (Hk a (final (m w))) as (C2 & E2 & R2 & F2).
    split; [congruence |]. split; [apply Forall_app; now split |].
    split; [exact R2 |].
    + intros cmd rc Hin Hrc. cbn in *. apply in_app_or in Hin as [Hin | Hin].
      * destruct (F1 cmd rc Hin Hrc) as (out & Hout). congruence.
      * now apply F2.
  - split; [exact C1 |]. split; [exact E1 |].
    split; [intros e0 [= <-]; now apply R1 |].
    intros cmd rc Hin Hrc. cbn in *. destruct (F1 cmd rc Hin Hrc) as (out & Hout).
    exists out. congruence.
Qed.

Lemma flat_reading {A} (f : World FS -> Result A) :
  (forall w e, f w = Raise e -> R e) -> flat P R (reading f).
Proof.
  intros Hf. apply flat_quiet. intros w. cbn.
  split; [reflexivity |]. split; [constructor | apply Hf].
Qed.

Lemma flat_print (line : string) : flat P R (print (FS := FS) line).
Proof.
  apply flat_quiet. intros w. cbn.
  split; [reflexivity |]. split; [constructor | discriminate].
Qed.

Lemma flat_mutating (ev : Event) (op : World FS -> string + FS) :
  P ev -> is_spawn ev = false -> (forall msg, R (OSError msg)) ->
  flat P R (mutating ev op).
Proof.
  intros Hev Hq HR. apply flat_quiet. intros w. unfold mutating.
  destruct (op w) as [msg|f]; cbn;
    (split; [reflexivity |]; split; [now repeat constructor |]).
  - intros e [= <-]. apply HR.
  - discriminate.
Qed.

Lemma flat_subprocess_check_call cmd stderr kw :
  (forall s, P (EvSpawn cmd s)) ->
  (forall msg, R (OSError msg)) ->
  (forall rc, R (CalledProcessError rc cmd None None)) ->
  flat P R (subprocess_check_call cmd stderr kw).
Proof.
  intros HP HO HC w. unfold subprocess_check_call.
  destruct (os_exec cmd kw w) as [msg|c]; cbn.
  - split; [reflexivity |]. split; [now repeat constructor |]. split.
    + intros e [= <-]. apply HO.
    + intros c rc [Hs | []]. discriminate Hs.
  - split; [reflexivity |]. split; [now repeat constructor |]. split.
    + intros e. destruct (Z.eqb (returncode_of c) 0); [discriminate |].
      intros [= <-]. apply HC.
    + intros c' rc [[= <- <-] | []] Hrc. cbn.
      apply Z.eqb_neq in Hrc. rewrite Hrc. eauto.
Qed.

Lemma flat_subprocess_check_output cmd stderr kw :
  dict_mem kw "stdout" = false -> dict_mem kw "check" = false ->
  (forall s, P (EvSpawn cmd s)) ->
  (forall msg, R (OSError msg)) ->
  (forall rc out, R (CalledProcessError rc cmd (Some out) None)) ->
  flat P R (subprocess_check_output cmd stderr kw).
Proof.
  intros K1 K2 HP HO HC w. unfold subprocess_check_output. rewrite K1, K2.
  destruct (os_exec cmd kw w) as [msg|c]; cbn.
  - split; [reflexivity |]. split; [now repeat constructor |]. split.
    + intros e [= <-]. apply HO.
    + intros c rc [Hs | []]. discriminate Hs.
  - split; [reflexivity |]. split; [now repeat constructor |]. split.
    + intros e. destruct (Z.eqb (returncode_of c) 0); [discriminate |].
      intros [= <-]. apply HC.
    + intros c' rc [[= <- <-] | []] Hrc. cbn.
      apply Z.eqb_neq in Hrc. rewrite Hrc. eauto.
Qed.

End Rules.

Section FlatUtilities.

Context {FS : Type} {os : OS FS}.
Variable h : Host.
Variables (P : Event -> Prop) (R : Exn -> Prop).
Hypothesis P_makedirs : forall p, P (EvMakedirs p).
Hypothesis P_chmod : forall p m, P (EvChmod p m).
Hypothesis R_os_error : forall msg, R (OSError msg).

Lemma flat_is_executable_available (program : string) :
  R (KeyError "PATH") -> flat P R (is_executable_available h program).
Proof.
  intros HK. unfold is_executable_available.
  destruct (Str.truthy (PosixPath.dirname program)).
  - apply flat_reading. discriminate.
  - destruct (dict_get (environ h) "PATH").
    + apply flat_reading. discriminate.
    + now apply flat_raise.
Qed.

Lemma flat_ensure_path_exists (dir_path : string) :
  flat P R (ensure_path_exists dir_path).
Proof.
  unfold ensure_path_exists. apply flat_bind.
  - apply flat_reading. discriminate.
  - intros present. destruct present; cbn [negb].
    + apply flat_ret.
    + apply flat_bind; [| intros; apply flat_ret].
      now apply flat_mutating.
Qed.

Lemma flat_ensure_parent_dir_exists (path : string) :
  flat P R (ensure_parent_dir_exists path).
Proof.
  unfold ensure_parent_dir_exists. apply flat_bind.
  - apply flat_ensure_path_exists.
  - intros. apply flat_ret.
Qed.

Lemma flat_chmod_plus_x (path : string) :
  flat P R (chmod_plus_x path).
Proof.
  unfold chmod_plus_x. apply flat_bind.
  - apply flat_reading. intros w e.
    destruct (os_stat_mode path w); [intros [= <-]; apply R_os_error | discriminate].
  - intros mode. now apply flat_mutating.
Qed.

Lemma flat_announce command message :
  flat P R (announce (FS := FS) command message).
Proof.
  unfold announce. apply flat_bind.
  - destruct message as [m|]; [destruct (Str.truthy m) |];
      apply flat_print || apply flat_ret.
  - intros. apply flat_print.
Qed.

Lemma flat_check_subprocess_call command message stderr kw :
  (forall s, P (EvSpawn command s)) ->
  (forall rc, R (CalledProcessError rc command None None)) ->
  flat P R (check_subprocess_call command message stderr kw).
Proof.
  intros HP HC. unfold check_subprocess_call. apply flat_bind.
  - apply flat_announce.
  - intros. now apply flat_subprocess_check_call.
Qed.

Lemma flat_check_subprocess_output command message stderr kw :
  dict_mem kw "stdout" = false -> dict_mem kw "check" = false ->
  (forall s, P (EvSpawn command s)) ->
  (forall rc out, R (CalledProcessError rc command (Some out) None)) ->
  flat P R (check_subprocess_output command message stderr kw).
Proof.
  intros K1 K2 HP HC. unfold check_subprocess_output. apply flat_bind.
  - apply flat_announce.
  - intros. now apply flat_subprocess_check_output.
Qed.

End FlatUtilities.

(** Side conditions on the events and the exceptions allowed. *)
Ltac flat_side :=
  intros; cbv beta;
  first [ exact I | reflexivity | discriminate | (hnf; split; reflexivity) ].

(** A computation of the installer that stays in its directory, by its
    structure. *)
Ltac flat_step :=
  lazymatch goal with
  | |- flat _ _ (bind _ _) => apply flat_bind; [ | intros ? ]
  | |- flat _ _ (ret _) => apply flat_ret
  | |- flat _ _ (raise _) => apply flat_raise; flat_side
  | |- flat _ _ (print _) => apply flat_print
  | |- flat _ _ (reading (fun _ => Return _)) => apply flat_reading; discriminate
  | |- flat _ _ (mutating _ _) => apply flat_mutating; flat_side
  | |- flat _ _ (is_executable_available _ _) =>
      apply flat_is_executable_available; flat_side
  | |- flat _ _ (ensure_path_exists _) => apply flat_ensure_path_exists; flat_side
  | |- flat _ _ (ensure_parent_dir_exists _) =>
      apply flat_ensure_parent_dir_exists; flat_side
  | |- flat _ _ (chmod_plus_x _) => apply flat_chmod_plus_x; flat_side
  | |- flat _ _ (check_subprocess_call _ _ _ _) =>
      apply flat_check_subprocess_call; flat_side
  | |- flat _ _ (check_subprocess_output _ _ _ _) =>
      apply flat_check_subprocess_output; flat_side
  | |- flat _ _ (if negb ?b then _ else _) => destruct b; cbn [negb]
  | |- flat _ _ (if ?b then _ else _) => destruct b
  | |- flat _ _ (clone_solidity_repository _ _) => unfold clone_solidity_repository
  | |- flat _ _ (download_static_release _ _) => unfold download_static_release
  | |- flat _ _ (install_solc_from_static_linux _ _) =>
      unfold install_solc_from_static_linux
  end; cbv zeta.

Ltac flat_auto := repeat flat_step.


(* ------------------------------------------------------------------ *)
(** ** Computations that work in another directory for a while *)
(* ------------------------------------------------------------------ *)

Section SoundRules.

Context {FS : Type} {os : OS FS}.
Variables (P : Event -> Prop) (R : Exn -> Prop).

Lemma sound_of_flat {A} (m : M FS A) : flat P R m -> sound P R m.
Proof.
  intros Hm w. destruct (Hm w) as (C & E & Rr & F).
  split; [now left |]. split; [exact E |]. split; [exact Rr |].
  intros cmd rc Hin Hrc. left. now apply F.
Qed.


Lemma sound_bind {A B} (m : M FS A) (k : A -> M FS B) :
  sound P R m -> (forall a, sound P R (k a)) -> sound P R (bind m k).
Proof.
  intros Hm Hk w. destruct (Hm w) as (C1 & E1 & R1 & F1).
  unfold restore_failed, fails_fast_from, restore_failed in *.
  unfold bind. destruct (result (m w)) as [a|e] eqn:Er;
    cbn [result final events].
  - assert (C : cwd (final (m w)) = cwd w)
      by (destruct C1 as [C1 | (w' & msg & _ & Hr)];
          [exact C1 | discriminate Hr]).
    destruct (Hk a (final (m w))) as (C2 & E2 & R2 & F2).
    unfold restore_failed, fails_fast_from, restore_failed in *.
    rewrite C in C2, F2.
    split; [exact C2 |]. split; [apply Forall_app; now split |].
    split; [exact R2 |].
    intros cmd rc Hin Hrc. apply in_app_or in Hin as [Hin | Hin].
    + destruct (F1 cmd rc Hin Hrc) as [(out & Hout) | (w' & msg & _ & Hr)];
        discriminate.
    + now apply F2.
  - split; [| split; [exact E1 | split]].
    + destruct C1 as [C1 | (w' & msg & Hc & Hr)]; [now left | right].
      injection Hr as ->. exists w', msg. now split.
    + intros e0 [= <-]. now apply R1.
    + intros cmd rc Hin Hrc.
      destruct (F1 cmd rc Hin Hrc) as [(out & Hout) | (w' & msg & Hc & Hr)].
      * left. injection Hout as ->. exists out. reflexivity.
      * right. injection Hr as ->. exists w', msg. now split.
Qed.

(** The context manager around a body that stays where it is put. *)
Lemma sound_chdir {A} (path : string) (body : M FS A) :
  (forall p, P (EvChdir p)) -> (forall msg, R (OSError msg)) ->
  flat P R body -> sound P R (chdir path body).
Proof.
  intros HP HR Hb w.
  change (wp (chdir path body)
            (fun res w' Ev =>
               (cwd w' = cwd w
                \/ exists w0 msg,
                     chdir_failure (cwd w) w0 = Some msg
                     /\ res = Raise (OSError msg))
               /\ Forall P Ev
               /\ (forall e, res = Raise e -> R e)
               /\ (forall cmd rc, In (EvSpawn cmd (Some rc)) Ev -> rc <> 0%Z ->
                     (exists out, res = Raise (CalledProcessError rc cmd out None))
                     \/ exists w0 msg,
                          chdir_failure (cwd w) w0 = Some msg
                          /\ res = Raise (OSError msg))) w).
  apply wp_chdir.
  - intros msg _. split; [now left |]. split; [constructor |].
    split; [intros e [= <-]; apply HR | intros cmd rc []].
  - intros _ msg _. split; [intros _ | intros msg' _].
    all: split; [now left |].
    all: split; [repeat constructor; apply HP |].
    all: split; [intros e [= <-]; apply HR |].
    all: intros cmd rc [Hin | [Hin | []]]; discriminate Hin.
  - intros _ _. destruct (Hb (set_cwd path w)) as (C & E & Rr & F).
    unfold wp. split; [intros _ | intros msg' Hko].
    + split; [now left |].
      split; [constructor; [apply HP |]; apply Forall_app; split;
              [exact E | repeat constructor; apply HP] |].
      split; [exact Rr |].
      intros cmd rc [Hin | Hin] Hrc; [discriminate Hin |].
      apply in_app_or in Hin as [Hin | [Hin | []]]; [| discriminate Hin].
      left. now apply F.
    + split; [right; eauto |].
      split; [constructor; [apply HP |]; apply Forall_app; split;
              [exact E | repeat constructor; apply HP] |].
      split; [intros e [= <-]; apply HR |].
      intros cmd rc _ _. right. eauto.
Qed.

(** Where the directory a run starts in can always be entered, the run
    ends in it and fails fast. *)
Lemma sound_at_home {A} (m : M FS A) (w : World FS) :
  sound P R m -> can_always_enter (cwd w) ->
  cwd (final (m w)) = cwd w /\ fails_fast (m w).
Proof.
  intros Hm Hhome. destruct (Hm w) as (C & _ & _ & F).
  assert (N : ~ restore_failed (cwd w) (m w)).
  { intros (w' & msg & Hc & _). rewrite (Hhome w') in Hc. discriminate Hc. }
  split; [tauto |].
  intros cmd rc Hin Hrc. destruct (F cmd rc Hin Hrc); tauto.
Qed.

End SoundRules.

(** Soundness of a computation of the installer, by its structure. *)
Ltac sound_step :=
  lazymatch goal with
  | |- sound _ _ (bind _ _) => apply sound_bind; [ | intros ? ]
  | |- sound _ _ (chdir _ _) =>
      apply sound_chdir; [ flat_side | flat_side | flat_auto ]
  | |- sound _ _ (if negb ?b then _ else _) => destruct b; cbn [negb]
  | |- sound _ _ (if ?b then _ else _) => destruct b
  | |- sound _ _ (install_solc_dependencies _ _) => unfold install_solc_dependencies
  | |- sound _ _ (build_solc_from_source _ _) => unfold build_solc_from_source
  | |- sound _ _ (install_from_source _ _) => unfold install_from_source
  | |- sound _ _ _ => apply sound_of_flat; flat_auto
  end; cbv zeta.

Ltac sound_auto := repeat sound_step.

(* ------------------------------------------------------------------ *)
(** ** The working directory *)
(* ------------------------------------------------------------------ *)

Section Cwd.

Context {FS : Type} {os : OS FS}.
Variable h : Host.
Local Open Scope py_scope.


Lemma sound_build_solc_from_source identifier :
  sound any_event carries_no_output (build_solc_from_source h identifier).
Proof. sound_auto. Qed.

Lemma sound_install_from_source identifier :
  sound any_event carries_no_output (install_from_source h identifier).
Proof. sound_auto. Qed.


End Cwd.



(* ------------------------------------------------------------------ *)
(** ** The dispatcher *)
(* ------------------------------------------------------------------ *)

Lemma In_insert_sorted (v x : string) (xs : list string) :
  In v (insert_sorted x xs) <-> v = x \/ In v xs.
Proof.
  induction xs as [|y ys IH]; simpl.
  - intuition.
  - destruct (String.leb x y); simpl; [intuition |].
    rewrite IH. intuition.
Qed.

Lemma In_sorted (v : string) (xs : list string) : In v (sorted xs) <-> In v xs.
Proof.
  induction xs as [|x xs IH]; simpl; [reflexivity |].
  rewrite In_insert_sorted, IH. intuition.
Qed.

Lemma dict_mem_keys {V} (d : dict V) (k : string) :
  dict_mem d k = true <-> In k (dict_keys d).
Proof.
  unfold dict_mem, dict_keys. induction d as [|[k' v] d IH]; simpl.
  - split; [discriminate | tauto].
  - destruct (String.eqb_spec k' k) as [-> | N].
    + split; auto.
    + rewrite IH. split; [auto | now intros [E | I]].
Qed.

Section Dispatcher.

Context {FS : Type} {os : OS FS}.
Variable h : Host.

(** C3.  For a platform of the dispatch table and an identifier that
    is not registered under it, [install_solc] raises the
    unsupported-version error, whose message lists the identifiers
    registered for that platform (sorted, and exactly those); no
    strategy has run: the world is untouched and nothing was called. *)
Theorem install_solc_unsupported_version
    (platform : string) (versions : dict (M FS PyVal))
    (identifier : string) (w : World FS) :
  dict_get (INSTALL_FUNCTIONS h) platform = Some versions ->
  dict_mem versions identifier = false ->
  install_solc h identifier (Some platform) w
  = {| result :=
         Raise (ValueError
                  ("Installation of solidity==" ++ identifier
                     ++ " is not supported.  Must be one of "
                     ++ Str.join ", " (sorted (dict_keys versions))));
       final := w;
       events := [] |}
  /\ (forall v, In v (sorted (dict_keys versions))
                <-> dict_mem versions v = true).
Proof.
  intros Hp Hv. split.
  - unfold install_solc, bind, ret. cbn [result final events].
    rewrite Hp. unfold dict_mem in Hv.
    destruct (dict_get versions identifier); [discriminate |].
    reflexivity.
  - intros v. now rewrite In_sorted, dict_mem_keys.
Qed.

(** C8.  Under autodetection a [sys.platform] that is none of
    [linux*], [darwin], [win32] makes [get_platform] raise [KeyError]
    before the dispatcher validates anything (the world is untouched,
    nothing was called); [win32] reaches the unsupported-platform
    error; and under autodetection that error is raised for [win32]
    only. *)
Theorem autodetect_unknown_platform (identifier : string) (w : World FS) :
  (Str.startswith (sys_platform h) "linux" = false ->
   sys_platform h <> OSX -> sys_platform h <> WINDOWS ->
   install_solc h identifier None w
   = {| result := Raise (KeyError ("Unknown platform: " ++ sys_platform h));
        final := w; events := [] |})
  /\ (sys_platform h = WINDOWS ->
      install_solc h identifier None w
      = {| result :=
             Raise (ValueError
                      ("Installation of solidity is not supported on your platform ("
                         ++ WINDOWS ++ "). Supported platforms are: "
                         ++ Str.join ", " (sorted (dict_keys (INSTALL_FUNCTIONS h)))));
           final := w; events := [] |})
  /\ (forall p,
        result (install_solc h identifier None w)
        = Raise (ValueError (unsupported_platform_message h p)) ->
        sys_platform h = WINDOWS).
Proof.
  split; [| split].
  - intros Hl Hd Hw. unfold install_solc, bind, get_platform.
    rewrite Hl. apply String.eqb_neq in Hd, Hw. rewrite Hd, Hw. reflexivity.
  - intros Hw. unfold install_solc, bind, get_platform. rewrite Hw. reflexivity.
  - intros p. unfold install_solc, get_platform.
    destruct (Str.startswith (sys_platform h) "linux") eqn:Hl;
      [| destruct (String.eqb_spec (sys_platform h) OSX) as [Ho | Ho];
         [| destruct (String.eqb_spec (sys_platform h) WINDOWS) as [Hw | Hw];
            [ intros _; exact Hw | discriminate ] ] ].
    all: intros E; exfalso; revert E.
    all: match goal with
         | |- result (?m ?w0) = Raise ?e -> False =>
             change (wp m (fun res _ _ => res = Raise e -> False) w0)
         end.
    all: apply wp_bind, wp_ret; cbv beta iota.
    all: unfold INSTALL_FUNCTIONS; cbn [dict_get String.eqb Ascii.eqb Bool.eqb
                                         LINUX OSX V100_5_12 V100_5_15].
    all: repeat match goal with
           | |- wp (match (if ?b then _ else _) with _ => _ end) _ _ => destruct b
           end.
    all: try (apply wp_raise; intros [= E]; discriminate E).
    all: apply wp_bind;
         match goal with
         | |- wp ?m _ _ =>
             let S := fresh in
             assert (S : sound any_event not_value_error m)
               by (unfold install_v100_5_12_linux, install_v100_5_15_linux,
                     install_v100_5_12_osx, install_v100_5_15_osx; sound_auto);
             match goal with
             | |- wp _ _ ?w0 =>
                 destruct (S w0) as (_ & _ & S' & _); unfold wp;
                 destruct (result (m w0)) as [a|e]
             end
         end.
    all: try (apply wp_ret; discriminate).
    all: intros [= ->]; specialize (S' _ eq_refl); discriminate S'.
Qed.

End Dispatcher.

Lemma install_solc_unsupported_version_witness :
  install_solc (os := Toy.toy_os Toy.tools) demo_host "v0.5.0" (Some LINUX)
               Toy.clean_box
  = {| result :=
         Raise (ValueError
                  "Installation of solidity==v0.5.0 is not supported.  Must be one of v100.5.12, v100.5.15");
       final := Toy.clean_box;
       events := [] |}.
Proof.
  exact (proj1 (install_solc_unsupported_version (os := Toy.toy_os Toy.tools)
                  demo_host LINUX _ "v0.5.0" Toy.clean_box eq_refl eq_refl)).
Defined.

Lemma autodetect_unknown_platform_witness :
  install_solc (os := Toy.toy_os Toy.tools) bsd_host V100_5_12 None Toy.clean_box
  = {| result := Raise (KeyError "Unknown platform: freebsd13");
       final := Toy.clean_box;
       events := [] |}.
Proof.
  exact (proj1 (autodetect_unknown_platform (os := Toy.toy_os Toy.tools)
                  bsd_host V100_5_12 Toy.clean_box)
               eq_refl ltac:(discriminate) ltac:(discriminate)).
Defined.

(* ------------------------------------------------------------------ *)
(** ** The process runner *)
(* ------------------------------------------------------------------ *)

Lemma routed_all (d : Dest) (cs : list (Stream * string)) :
  routed d d d cs = merged cs.
Proof.
  unfold routed, merged. induction cs as [|[s t] cs IH]; [reflexivity |].
  cbn [filter fst]. replace (dest_eqb (dest_of d d s) d) with true.
  - cbn [map snd]. now rewrite IH.
  - now destruct s, d.
Qed.

Lemma routed_none (d d' : Dest) (cs : list (Stream * string)) :
  dest_eqb d' d = false -> routed d d' d' cs = [].
Proof.
  intros Hd. unfold routed. induction cs as [|[s t] cs IH]; [reflexivity |].
  cbn [filter fst]. replace (dest_eqb (dest_of d' d' s) d) with false; [exact IH |].
  now destruct s.
Qed.

Section Runner.

Context {FS : Type} {os : OS FS}.

Lemma announce_run (command : list string) (message : option string)
    (w : World FS) :
  announce command message w
  = {| result := Return tt;
       final := write_stdout (progress_lines command message) w;
       events := [] |}.
Proof.
  unfold announce, progress_lines, bind, print, ret, write_stdout.
  destruct message as [m|]; [destruct (Str.truthy m) |]; cbn;
    now rewrite <- ?app_assoc.
Qed.

(** C9.  The [stderr] parameter of the two runner functions has no
    effect: for any two values of it the runs are the same, those of
    the [subprocess] call with the child's stderr sent to its stdout.
    So, when no [stdout] keyword sends the child's output elsewhere,
    nothing a child writes reaches the descriptor 2 of the installer,
    whatever the parameter says. *)
Theorem runner_stderr_parameter_unused
    (command : list string) (message : option string)
    (stderr1 stderr2 : Redirection) (proc_kwargs : kwargs) (w : World FS) :
  check_subprocess_call command message stderr1 proc_kwargs w
  = check_subprocess_call command message stderr2 proc_kwargs w
  /\ check_subprocess_output command message stderr1 proc_kwargs w
     = check_subprocess_output command message stderr2 proc_kwargs w
  /\ check_subprocess_call command message stderr1 proc_kwargs w
     = bind (announce command message)
            (fun _ => subprocess_check_call command R_STDOUT proc_kwargs) w
  /\ check_subprocess_output command message stderr1 proc_kwargs w
     = bind (announce command message)
            (fun _ => subprocess_check_output command R_STDOUT proc_kwargs) w
  /\ (dict_mem proc_kwargs "stdout" = false ->
      on_fd2 (final (check_subprocess_call command message stderr1
                       proc_kwargs w)) = on_fd2 w
      /\ on_fd2 (final (check_subprocess_output command message stderr1
                          proc_kwargs w)) = on_fd2 w).
Proof.
  do 4 (split; [reflexivity |]).
  intros K.
  assert (D : stdout_dest proc_kwargs = ToStdout).
  { unfold stdout_dest. unfold dict_mem in K.
    now destruct (dict_get proc_kwargs "stdout"). }
  unfold check_subprocess_call, check_subprocess_output, bind.
  rewrite announce_run. cbn [result final events]. split.
  - unfold subprocess_check_call.
    destruct (os_exec command proc_kwargs _) as [msg|c]; cbn [result final];
      [| destruct (Z.eqb (returncode_of c) 0); cbn [final]].
    1: reflexivity.
    all: unfold after_child; rewrite D; cbn [stderr_dest];
      rewrite (routed_none ToStderr ToStdout) by reflexivity;
      cbn; apply app_nil_r.
  - unfold subprocess_check_output. rewrite K.
    destruct (dict_mem proc_kwargs "check"); [reflexivity |].
    destruct (os_exec command proc_kwargs _) as [msg|c]; cbn [result final];
      [| destruct (Z.eqb (returncode_of c) 0); cbn [final]].
    1: reflexivity.
    all: unfold after_child; cbn [stderr_dest];
      rewrite (routed_none ToStderr ToCapture) by reflexivity;
      cbn; apply app_nil_r.
Qed.


End Runner.

Lemma runner_stderr_parameter_unused_witness :
  on_fd2 (final (check_subprocess_call (os := Toy.toy_os Toy.tools_noisy_failure)
                   ["make"] (Some "Running make command") R_None []
                   Toy.clean_box))
  = on_fd2 Toy.clean_box
  /\ on_fd2 (final (check_subprocess_output
                      (os := Toy.toy_os Toy.tools_noisy_failure)
                      ["make"] (Some "Running make command") R_None []
                      Toy.clean_box))
     = on_fd2 Toy.clean_box.
Proof.
  exact (proj2 (proj2 (proj2 (proj2
           (runner_stderr_parameter_unused
              (os := Toy.toy_os Toy.tools_noisy_failure)
              ["make"] (Some "Running make command") R_None R_PIPE []
              Toy.clean_box))))
           eq_refl).
Defined.


(** The [stderr] argument of [subprocess.check_output] itself does
    matter: with the parent's stderr inherited, what the child writes to
    its stderr is not captured. *)
Lemma subprocess_stderr_argument_matters :
  result (subprocess_check_output (os := Toy.toy_os Toy.tools_noisy_failure)
            ["make"] R_STDOUT [] Toy.clean_box)
  = Raise (CalledProcessError 3 ["make"] (Some "out1;err1;out2;") None)
  /\ result (subprocess_check_output (os := Toy.toy_os Toy.tools_noisy_failure)
               ["make"] R_None [] Toy.clean_box)
     = Raise (CalledProcessError 3 ["make"] (Some "out1;out2;") None).
Proof. split; reflexivity. Qed.



(* ------------------------------------------------------------------ *)
(** ** What a successful install hands back *)
(* ------------------------------------------------------------------ *)

Section Success.

Context {FS : Type} {os : OS FS}.
Variable h : Host.
Local Open Scope py_scope.

Lemma concludes_bind {A B} (line : string) (m : M FS A) (k : A -> M FS B) :
  (forall a, concludes line (k a)) -> concludes line (bind m k).
Proof.
  intros Hk w v. unfold bind.
  destruct (result (m w)) as [a|e]; cbn; [apply Hk | discriminate].
Qed.

Lemma concludes_print {A} (line : string) (v0 : A) :
  concludes (FS := FS) line (print line ;; ret v0).
Proof. intros w v _. now exists (sys_stdout w). Qed.

Lemma concludes_then_ret {A B} (line : string) (m : M FS A) (v0 : B) :
  concludes line m -> concludes line (m ;; ret v0).
Proof.
  intros Hm w v. unfold bind. specialize (Hm w).
  destruct (result (m w)) as [a|e]; cbn; [| discriminate].
  intros _. now apply (Hm a).
Qed.

Lemma concludes_install_solc_from_static_linux identifier :
  concludes (linux_success_line (get_executable_path h identifier))
            (install_solc_from_static_linux h identifier).
Proof.
  unfold install_solc_from_static_linux.
  repeat first [ apply concludes_print | (apply concludes_bind; intros ?) ].
Qed.

Lemma concludes_install_from_source identifier :
  concludes (source_success_line (get_executable_path h identifier))
            (install_from_source h identifier).
Proof.
  unfold install_from_source.
  repeat first [ apply concludes_print | (apply concludes_bind; intros ?) ].
Qed.

(** The dispatch table binds each identifier to a strategy applied to
    that same identifier. *)
Lemma registered_strategy platform versions identifier install_fn :
  dict_get (INSTALL_FUNCTIONS h) platform = Some versions ->
  dict_get versions identifier = Some install_fn ->
  (platform = LINUX /\ install_fn = install_solc_from_static_linux h identifier)
  \/ (platform = OSX /\ install_fn = install_from_source h identifier).
Proof.
  unfold INSTALL_FUNCTIONS. cbn [dict_get].
  destruct (String.eqb_spec LINUX platform) as [<- | _];
    [| destruct (String.eqb_spec OSX platform) as [<- | _]; [| discriminate]].
  all: intros [= <-]; cbn [dict_get].
  all: destruct (String.eqb_spec V100_5_12 identifier) as [<- | _];
    [| destruct (String.eqb_spec V100_5_15 identifier) as [<- | _]; [| discriminate]].
  all: intros [= <-]; auto.
Qed.

(** C2, as amended.  For a registered (platform, version) pair, when
    the strategy completes without raising, [install_solc] returns
    [None]; the canonical executable path of the identifier is in the
    last line written to standard output, the success message of the
    strategy. *)
Theorem install_solc_returns_none
    (platform : string) (versions : dict (M FS PyVal))
    (install_fn : M FS PyVal) (identifier : string) (w : World FS) (v : PyVal) :
  dict_get (INSTALL_FUNCTIONS h) platform = Some versions ->
  dict_get versions identifier = Some install_fn ->
  result (install_solc h identifier (Some platform) w) = Return v ->
  v = PyNone
  /\ exists pre line,
       sys_stdout (final (install_solc h identifier (Some platform) w))
       = (pre ++ [line])%list
       /\ ((platform = LINUX
            /\ line = "solc successfully installed at: "
                        ++ get_executable_path h identifier)
           \/ (platform = OSX
               /\ line = "Succesfully installed solc @ `"
                           ++ get_executable_path h identifier ++ "`")).
Proof.
  intros Hp Hv.
  assert (E : install_solc h identifier (Some platform) w
              = bind install_fn (fun _ => ret PyNone) w).
  { unfold install_solc. unfold bind at 1. cbn [ret result final events].
    rewrite Hp, Hv. destruct (bind _ _ w). reflexivity. }
  rewrite E. intros Hr. split.
  - revert Hr. unfold bind. destruct (result (install_fn w)); cbn; congruence.
  - destruct (registered_strategy _ _ _ _ Hp Hv) as [[-> ->] | [-> ->]].
    + destruct (concludes_then_ret _ _ PyNone
                  (concludes_install_solc_from_static_linux identifier) w v Hr)
        as (pre & Hpre).
      exists pre, (linux_success_line (get_executable_path h identifier)). auto.
    + destruct (concludes_then_ret _ _ PyNone
                  (concludes_install_from_source identifier) w v Hr)
        as (pre & Hpre).
      exists pre, (source_success_line (get_executable_path h identifier)). auto.
Qed.

End Success.

Lemma install_solc_returns_none_witness :
  PyNone = PyNone
  /\ exists pre line,
       sys_stdout (final (install_solc (os := Toy.toy_os Toy.tools) demo_host
                            V100_5_12 (Some LINUX) Toy.clean_box))
       = (pre ++ [line])%list
       /\ ((LINUX = LINUX
            /\ line = "solc successfully installed at: "
                        ++ get_executable_path demo_host V100_5_12)
           \/ (LINUX = OSX
               /\ line = "Succesfully installed solc @ `"
                           ++ get_executable_path demo_host V100_5_12 ++ "`")).
Proof.
  exact (install_solc_returns_none (os := Toy.toy_os Toy.tools) demo_host
           LINUX _ _ V100_5_12 Toy.clean_box PyNone eq_refl eq_refl eq_refl).
Defined.

(** C2, as stated, fails: a successful install on linux returns [None],
    not the path of the executable. *)
Lemma install_solc_does_not_return_the_path :
  ~ (forall (FS : Type) (os : OS FS) (h : Host) (platform : string)
            (versions : dict (M FS PyVal)) (install_fn : M FS PyVal)
            (identifier : string) (w : World FS) (v : PyVal),
       dict_get (INSTALL_FUNCTIONS h) platform = Some versions ->
       dict_get versions identifier = Some install_fn ->
       result (install_solc h identifier (Some platform) w) = Return v ->
       v = PyStr (get_executable_path h identifier)).
Proof.
  intros H.
  specialize (H Toy.ToyFS (Toy.toy_os Toy.tools) demo_host LINUX _ _ V100_5_12
                Toy.clean_box PyNone eq_refl eq_refl eq_refl).
  discriminate H.
Qed.

(* ------------------------------------------------------------------ *)
(** ** The Source Build strategy *)
(* ------------------------------------------------------------------ *)

Section SourceBuild.

Context {FS : Type} {os : OS FS}.
Variable h : Host.
Local Open Scope py_scope.

Lemma install_solc_dependencies_never_clones identifier :
  sound not_clone any_exn (install_solc_dependencies h identifier).
Proof. sound_auto. Qed.

(** The build step does not clone over a checkout. *)
Lemma build_over_checkout_never_clones identifier (w : World FS) :
  is_git_repository (get_repository_path h identifier) w = true ->
  Forall not_clone (events (build_solc_from_source h identifier w)).
Proof.
  intros Hgit.
  change (wp (build_solc_from_source h identifier)
             (fun _ _ E => Forall not_clone E) w).
  unfold build_solc_from_source.
  apply wp_bind, wp_reading. rewrite Hgit. cbn [negb].
  apply wp_bind, wp_ret. cbn [app].
  match goal with
  | |- wp ?m _ _ =>
      assert (S : sound not_clone any_exn m) by sound_auto;
      destruct (S w) as (_ & E & _)
  end.
  exact E.
Qed.

(** C4, as amended.  When [.git] exists at the repository path as the
    Source Build strategy starts, and still does once the dependency
    step has returned, no clone command is started during the run; the
    build step by itself starts none whenever [.git] exists as it
    begins. *)
Theorem clone_skipped_over_checkout (identifier : string) (w : World FS) :
  is_git_repository (get_repository_path h identifier) w = true ->
  Forall not_clone (events (build_solc_from_source h identifier w))
  /\ ((forall v, result (install_solc_dependencies h identifier w) = Return v ->
         is_git_repository (get_repository_path h identifier)
           (final (install_solc_dependencies h identifier w)) = true) ->
      Forall not_clone (events (install_from_source h identifier w))).
Proof.
  intros Hgit. split; [now apply build_over_checkout_never_clones |].
  intros Hstill.
  change (wp (install_from_source h identifier)
             (fun _ _ E => Forall not_clone E) w).
  unfold install_from_source.
  apply wp_bind, wp_reading. rewrite Hgit. cbn [negb].
  apply wp_bind, wp_ret. cbn [app].
  pose proof (install_solc_dependencies_never_clones identifier w)
    as (_ & Ed & _).
  apply wp_bind_run; [intros v Hv | intros _ _; exact Ed].
  pose proof (build_over_checkout_never_clones identifier _ (Hstill v Hv)) as Eb.
  apply wp_bind_run; [intros _ _ | intros _ _; apply Forall_app; now split].
  apply wp_bind, wp_print. apply wp_ret.
  rewrite !app_nil_r. apply Forall_app. now split.
Qed.

End SourceBuild.

Lemma clone_skipped_over_checkout_witness :
  Forall not_clone
    (events (install_from_source (os := Toy.toy_os Toy.tools) home_host
               V100_5_12 Toy.box_with_checkout)).
Proof.
  exact (proj2 (clone_skipped_over_checkout (os := Toy.toy_os Toy.tools)
                  home_host V100_5_12 Toy.box_with_checkout eq_refl)
               (fun _ _ => eq_refl)).
Defined.

(** C4, as stated, fails: over an existing checkout, a dependency script
    that removes the [.git] directory makes the build step clone. *)
Lemma clone_after_script_removed_checkout :
  ~ (forall (FS : Type) (os : OS FS) (h : Host) (identifier : string)
            (w : World FS),
       is_git_repository (get_repository_path h identifier) w = true ->
       Forall not_clone (events (install_from_source h identifier w))).
Proof.
  intros H.
  specialize (H Toy.ToyFS (Toy.toy_os Toy.tools_script_cleans) home_host
                V100_5_12 Toy.box_with_checkout eq_refl).
  rewrite Forall_forall in H.
  specialize (H (EvSpawn (clone_command V100_5_12
                            (get_repository_path home_host V100_5_12))
                         (Some 0%Z))).
  assert (I : In (EvSpawn (clone_command V100_5_12
                             (get_repository_path home_host V100_5_12))
                          (Some 0%Z))
                 (events (install_from_source (os := Toy.toy_os Toy.tools_script_cleans)
                            home_host V100_5_12 Toy.box_with_checkout))).
  { vm_compute. do 4 right. left. reflexivity. }
  specialize (H I). discriminate H.
Qed.

Section FailingBuild.

Context {FS : Type} {os : OS FS}.
Variable h : Host.
Local Open Scope py_scope.

(** A run that returned has seen no process exit nonzero. *)
Lemma returned_without_failure {A} (home : string) (r : Run FS A) (a : A)
    (cmd : list string) (rc : Z) :
  fails_fast_from home r -> result r = Return a -> rc <> 0%Z ->
  ~ In (EvSpawn cmd (Some rc)) (events r).
Proof.
  intros F Hr Hrc Hin.
  destruct (F cmd rc Hin Hrc) as [(out & Hout) | (w' & msg & _ & Hout)];
    congruence.
Qed.

Lemma no_link_quiet {A} (R : Exn -> Prop) (m : M FS A) :
  flat not_spawn R m -> no_link_after_failure m.
Proof.
  intros Hm w cmd rc _ Hin. destruct (Hm w) as (_ & E & _).
  rewrite Forall_forall in E. discriminate (E _ Hin).
Qed.

(** A step that makes no link, before steps that make none after a
    failure. *)
Lemma no_link_bind {A B} (R : Exn -> Prop) (m : M FS A) (k : A -> M FS B) :
  sound not_symlink R m -> (forall a, no_link_after_failure (k a)) ->
  no_link_after_failure (bind m k).
Proof.
  intros Hm Hk w cmd rc Hrc. destruct (Hm w) as (_ & E & _ & F).
  unfold bind. destruct (result (m w)) as [a|e] eqn:Er;
    cbn [result final events]; [| intros _; exact E].
  intros Hin. apply Forall_app. split; [exact E |].
  apply in_app_or in Hin as [Hin | Hin].
  - now destruct (returned_without_failure _ _ a cmd rc F Er Hrc).
  - now apply (Hk a _ cmd rc).
Qed.

(** Steps that make no link after a failure, before steps that start
    nothing. *)
Lemma no_link_bind_quiet {A B} (P : Event -> Prop) (R R' : Exn -> Prop)
    (m : M FS A) (k : A -> M FS B) :
  no_link_after_failure m -> sound P R m ->
  (forall a, flat not_spawn R' (k a)) ->
  no_link_after_failure (bind m k).
Proof.
  intros Hm Sm Hk w cmd rc Hrc. destruct (Sm w) as (_ & _ & _ & F).
  unfold bind. destruct (result (m w)) as [a|e] eqn:Er;
    cbn [result final events]; [| now apply Hm].
  intros Hin. exfalso. apply in_app_or in Hin as [Hin | Hin].
  - now destruct (returned_without_failure _ _ a cmd rc F Er Hrc).
  - destruct (Hk a (final (m w))) as (_ & E & _).
    rewrite Forall_forall in E. discriminate (E _ Hin).
Qed.

Ltac quiet_side :=
  intros; cbv beta; first [ exact I | reflexivity ].

(** The build step: a command that exited nonzero has kept it from the
    symbolic link. *)
Lemma build_failed_before_link identifier :
  no_link_after_failure (build_solc_from_source h identifier).
Proof.
  unfold build_solc_from_source.
  do 4 (eapply no_link_bind with (R := any_exn); [sound_auto | intros ?]).
  eapply no_link_quiet with (R := any_exn).
  repeat first
    [ apply flat_ret
    | (apply flat_chmod_plus_x; quiet_side)
    | (apply flat_ensure_parent_dir_exists; quiet_side)
    | (apply flat_mutating; quiet_side)
    | (apply flat_bind; [| intros ?]) ].
Qed.

Lemma strategy_failed_before_link identifier :
  no_link_after_failure (install_from_source h identifier).
Proof.
  unfold install_from_source.
  do 3 (eapply no_link_bind with (R := any_exn); [sound_auto | intros ?]).
  eapply no_link_bind_quiet with (R' := any_exn).
  - apply build_failed_before_link.
  - apply sound_build_solc_from_source.
  - intros _. apply flat_bind; [apply flat_print | intros; apply flat_ret].
Qed.

(** C5, as amended.  In a run of the Source Build strategy (the build
    step alone, or the whole strategy), a command that exited nonzero,
    [cmake ..] and [make] among them, ends the run, and the symbolic
    link has not been made.  The caller gets the [CalledProcessError]
    of that command and that exit status, unless the [os.chdir] back to
    the directory the run started in failed: then it gets the [OSError]
    of that call.  Where the directory can always be entered, it is the
    [CalledProcessError]. *)
Theorem failing_build_command_stops_the_build
    (identifier : string) (w : World FS) (cmd : list string) (rc : Z) :
  rc <> 0%Z ->
  (In (EvSpawn cmd (Some rc)) (events (build_solc_from_source h identifier w)) ->
   Forall not_symlink (events (build_solc_from_source h identifier w))
   /\ (result (build_solc_from_source h identifier w)
       = Raise (CalledProcessError rc cmd None None)
       \/ restore_failed (cwd w) (build_solc_from_source h identifier w))
   /\ (can_always_enter (cwd w) ->
       result (build_solc_from_source h identifier w)
       = Raise (CalledProcessError rc cmd None None)))
  /\ (In (EvSpawn cmd (Some rc)) (events (install_from_source h identifier w)) ->
      Forall not_symlink (events (install_from_source h identifier w))
      /\ (result (install_from_source h identifier w)
          = Raise (CalledProcessError rc cmd None None)
          \/ restore_failed (cwd w) (install_from_source h identifier w))
      /\ (can_always_enter (cwd w) ->
          result (install_from_source h identifier w)
          = Raise (CalledProcessError rc cmd None None))).
Proof.
  intros Hrc. split; intros Hin.
  - split; [now apply (build_failed_before_link identifier w cmd rc) |].
    destruct (sound_build_solc_from_source h identifier w) as (_ & _ & Rr & F).
    assert (D : result (build_solc_from_source h identifier w)
                = Raise (CalledProcessError rc cmd None None)
                \/ restore_failed (cwd w) (build_solc_from_source h identifier w)).
    { destruct (F cmd rc Hin Hrc) as [(out & Hout) | Hlost]; [left | now right].
      destruct (Rr _ Hout) as [-> _]. exact Hout. }
    split; [exact D |]. intros Hhome.
    destruct D as [D | (w' & msg & Hc & _)]; [exact D |].
    rewrite (Hhome w') in Hc. discriminate Hc.
  - split; [now apply (strategy_failed_before_link identifier w cmd rc) |].
    destruct (sound_install_from_source h identifier w) as (_ & _ & Rr & F).
    assert (D : result (install_from_source h identifier w)
                = Raise (CalledProcessError rc cmd None None)
                \/ restore_failed (cwd w) (install_from_source h identifier w)).
    { destruct (F cmd rc Hin Hrc) as [(out & Hout) | Hlost]; [left | now right].
      destruct (Rr _ Hout) as [-> _]. exact Hout. }
    split; [exact D |]. intros Hhome.
    destruct D as [D | (w' & msg & Hc & _)]; [exact D |].
    rewrite (Hhome w') in Hc. discriminate Hc.
Qed.

End FailingBuild.

Lemma failing_build_command_stops_the_build_witness :
  Forall not_symlink
    (events (install_from_source (os := Toy.toy_os Toy.tools_make_fails)
               home_host V100_5_12 (set_cwd "/" Toy.clean_box)))
  /\ result (install_from_source (os := Toy.toy_os Toy.tools_make_fails) home_host
               V100_5_12 (set_cwd "/" Toy.clean_box))
     = Raise (CalledProcessError 2 make_command None None).
Proof.
  assert (I : In (EvSpawn make_command (Some 2%Z))
                 (events (install_from_source
                            (os := Toy.toy_os Toy.tools_make_fails) home_host
                            V100_5_12 (set_cwd "/" Toy.clean_box)))).
  { vm_compute. do 8 right. left. reflexivity. }
  destruct (proj2 (failing_build_command_stops_the_build
                     (os := Toy.toy_os Toy.tools_make_fails) home_host V100_5_12
                     (set_cwd "/" Toy.clean_box) make_command 2
                     ltac:(discriminate)) I) as (L & _ & C).
  split; [exact L | exact (C (fun _ => eq_refl))].
Defined.

(** C5, as stated, fails: when the compile step fails after the
    directory the installer was started in has been removed, the caller
    gets the [OSError] of the way back, not an error with the command
    and its exit status. *)
Lemma failed_build_reports_lost_directory :
  ~ (forall (FS : Type) (os : OS FS) (h : Host) (identifier : string)
            (w : World FS) (cmd : list string) (rc : Z),
       rc <> 0%Z ->
       In (EvSpawn cmd (Some rc)) (events (build_solc_from_source h identifier w)) ->
       exists out err,
         result (build_solc_from_source h identifier w)
         = Raise (CalledProcessError rc cmd out err)).
Proof.
  intros H.
  destruct (H Toy.ToyFS (Toy.toy_os Toy.tools_make_fails_workdir_gone) home_host
              V100_5_12 Toy.box_with_checkout make_command 2%Z
              ltac:(discriminate)) as (out & err & Hr).
  - vm_compute. do 3 right. left. reflexivity.
  - vm_compute in Hr. discriminate Hr.
Qed.


(* ================================================================== *)
(** * Further properties *)
(* ================================================================== *)

(* ------------------------------------------------------------------ *)
(** ** Parent directories and the install root *)
(* ------------------------------------------------------------------ *)

Lemma rstrip_append_char (c : ascii) (a : string) :
  Str.rstrip c (a ++ String c "") = Str.rstrip c a.
Proof.
  induction a as [|x a IH]; simpl.
  - now rewrite Ascii.eqb_refl.
  - now rewrite IH.
Qed.

Lemma rstrip_unchanged (a : string) :
  Str.endswith a "/" = false -> Str.rstrip "/" a = a.
Proof.
  induction a as [|x a IH]; [reflexivity |].
  cbn [Str.endswith]. intros H. apply orb_false_iff in H as [Hx Ha].
  cbn [Str.rstrip]. rewrite (IH Ha). destruct a as [|y a]; [| reflexivity].
  destruct (Ascii.eqb_spec x "/"%char) as [-> | _]; [discriminate | reflexivity].
Qed.

Lemma rstrip_empty (c : ascii) (s : string) :
  Str.rstrip c s = "" -> s = Str.repeat c (String.length s).
Proof.
  induction s as [|x s IH]; [reflexivity |]. cbn [Str.rstrip].
  destruct (Str.rstrip c s) eqn:E; [| discriminate].
  destruct (Ascii.eqb_spec x c) as [-> | _]; [| discriminate].
  intros _. cbn. now rewrite <- IH.
Qed.

Lemma endswith_repeat (c : ascii) (n : nat) :
  Str.endswith (Str.repeat c (S n)) (String c "") = true.
Proof.
  induction n as [|n IH].
  - cbn. now rewrite Ascii.eqb_refl.
  - change (Str.repeat c (S (S n))) with (String c (Str.repeat c (S n))).
    cbn [Str.endswith]. rewrite IH. apply orb_true_r.
Qed.

Lemma repeat_prefix (c : ascii) (a t : string) (n : nat) :
  a ++ t = Str.repeat c n -> exists k, a = Str.repeat c k.
Proof.
  revert n. induction a as [|x a IH]; intros n E.
  - now exists 0.
  - destruct n as [|n]; [discriminate |]. cbn in E. injection E as -> E.
    destruct (IH n E) as (k & ->). now exists (S k).
Qed.

Lemma head_to_last_sep_none (p : string) :
  Str.contains "/" p = false -> PosixPath.head_to_last_sep p = "".
Proof.
  induction p as [|x p IH]; [reflexivity |]. cbn [Str.contains].
  intros H. apply orb_false_iff in H as [Hx Hp].
  cbn [PosixPath.head_to_last_sep]. unfold PosixPath.sep_char.
  now rewrite Hp, Hx.
Qed.

Lemma head_to_last_sep_some (p : string) :
  Str.contains "/" p = true -> PosixPath.head_to_last_sep p <> "".
Proof.
  destruct p as [|x p]; [discriminate |]. cbn [Str.contains].
  cbn [PosixPath.head_to_last_sep]. unfold PosixPath.sep_char.
  destruct (Str.contains "/" p); [discriminate |].
  rewrite orb_false_r. now intros ->.
Qed.

Lemma head_to_last_sep_append (a b : string) :
  Str.contains "/" b = false ->
  PosixPath.head_to_last_sep (a ++ String "/" b) = a ++ "/".
Proof.
  intros Hb. induction a as [|x a IH].
  - cbn. unfold PosixPath.sep_char. now rewrite Hb.
  - change (String x a ++ String "/" b) with (String x (a ++ String "/" b)).
    cbn [PosixPath.head_to_last_sep]. unfold PosixPath.sep_char.
    rewrite contains_append. cbn [Str.contains].
    rewrite Ascii.eqb_refl, orb_true_r. now rewrite IH.
Qed.

(** [dirname] is truthy exactly for the paths with a separator. *)
Lemma dirname_truthy (p : string) :
  Str.truthy (PosixPath.dirname p) = Str.contains "/" p.
Proof.
  unfold PosixPath.dirname.
  destruct (Str.contains "/" p) eqn:Hc.
  - pose proof (head_to_last_sep_some p Hc) as Hh.
    apply truthy_nonempty in Hh. rewrite Hh. cbn [andb].
    destruct (String.eqb_spec (PosixPath.head_to_last_sep p)
                (Str.repeat PosixPath.sep_char
                   (String.length (PosixPath.head_to_last_sep p)))) as [E | N];
      cbn [negb]; [exact Hh |].
    apply truthy_nonempty. intros E. now apply rstrip_empty in E.
  - now rewrite (head_to_last_sep_none p Hc).
Qed.

(** The directory of [a/b] is [a], when [a] is not empty and does not
    end with the separator and [b] has no separator. *)
Lemma dirname_of_child (a b : string) :
  a <> "" -> Str.endswith a "/" = false -> Str.contains "/" b = false ->
  PosixPath.dirname (a ++ "/" ++ b) = a.
Proof.
  intros Ha He Hb. unfold PosixPath.dirname.
  change ("/" ++ b) with (String "/" b).
  rewrite head_to_last_sep_append by exact Hb.
  assert (T : Str.truthy (a ++ "/") = true) by now apply truthy_append_r.
  rewrite T. cbn [andb].
  destruct (String.eqb_spec (a ++ "/")
              (Str.repeat PosixPath.sep_char (String.length (a ++ "/"))))
    as [E | _]; cbn [negb].
  - exfalso. apply repeat_prefix in E as (k & E).
    destruct k as [|k]; [now apply Ha |].
    rewrite E in He. unfold PosixPath.sep_char in He.
    now rewrite endswith_repeat in He.
  - unfold PosixPath.sep_char. rewrite rstrip_append_char.
    now apply rstrip_unchanged.
Qed.

(** X1.  For an identifier without a separator, the directory that
    [ensure_parent_dir_exists] makes for the repository path is the base
    install path, the one it makes for the executable path is the
    extract path, and the build directory lies directly in the
    repository path. *)
Theorem parents_of_install_paths (h : Host) (V : string) :
  Str.contains "/" V = false ->
  PosixPath.dirname (get_repository_path h V) = get_base_install_path h V
  /\ PosixPath.dirname (get_release_zipfile_path h V) = get_base_install_path h V
  /\ PosixPath.dirname (get_extract_path h V) = get_base_install_path h V
  /\ PosixPath.dirname (get_executable_path h V) = get_extract_path h V
  /\ PosixPath.dirname (get_build_dir h V) = get_repository_path h V.
Proof.
  intros HV. destruct (install_paths_shape h) as (P & HP).
  specialize (HP V HV). unfold install_paths, derived_paths in HP.
  cbn [map install_suffixes] in HP.
  injection HP as E0 E1 E2 E3 E4 E5 _.
  rewrite E0, E1, E2, E3, E4, E5. rewrite append_empty_r.
  set (B := P ++ "solc-" ++ V).
  assert (Bne : forall t, B ++ t <> "").
  { intros t E. apply (f_equal String.length) in E. unfold B in E.
    rewrite !length_append in E. simpl in E. lia. }
  assert (Bend : forall t, t <> "" -> Str.endswith t "/" = false ->
                           Str.endswith (B ++ t) "/" = false).
  { intros t Ht Et. now rewrite endswith_sep_append. }
  assert (B0 : B <> "") by (rewrite <- (append_empty_r B); apply Bne).
  assert (B1 : Str.endswith B "/" = false).
  { unfold B. rewrite endswith_sep_append by discriminate.
    apply no_sep_not_endswith. exact HV. }
  assert (F : forall t,
             P ++ String "s" (String "o" (String "l" (String "c"
                    (String "-" (V ++ t))))) = B ++ t)
    by (intros t; unfold B; now rewrite !append_assoc).
  rewrite !F.
  change (P ++ String "s" (String "o" (String "l" (String "c" (String "-" V)))))
    with B.
  repeat split.
  - now apply (dirname_of_child B "source").
  - now apply (dirname_of_child B "release.zip").
  - now apply (dirname_of_child B "bin").
  - change (B ++ "/bin/solc") with (B ++ "/bin" ++ "/" ++ "solc").
    rewrite <- append_assoc.
    apply dirname_of_child;
      [apply Bne | apply Bend; [discriminate | reflexivity] | reflexivity].
  - change (B ++ "/source/build") with (B ++ "/source" ++ "/" ++ "build").
    rewrite <- append_assoc.
    apply dirname_of_child;
      [apply Bne | apply Bend; [discriminate | reflexivity] | reflexivity].
Qed.

Lemma parents_of_install_paths_witness :
  PosixPath.dirname (get_executable_path demo_host V100_5_12)
  = get_extract_path demo_host V100_5_12.
Proof.
  exact (proj1 (proj2 (proj2 (proj2
           (parents_of_install_paths demo_host V100_5_12 eq_refl))))).
Defined.

(** X2.  Two different identifiers never have the same base install
    path, whatever characters they contain. *)
Theorem base_install_path_injective (h : Host) (V1 V2 : string) :
  V1 <> V2 -> get_base_install_path h V1 <> get_base_install_path h V2.
Proof.
  intros Hne E. apply Hne.
  destruct (base_install_path_shape h) as (P & HP). rewrite !HP in E.
  apply append_cancel_l in E. now apply (append_cancel_l "solc-") in E.
Qed.

Lemma base_install_path_injective_witness :
  get_base_install_path demo_host "a" <> get_base_install_path demo_host "a/source".
Proof.
  apply (base_install_path_injective demo_host "a" "a/source"). discriminate.
Defined.

(** X3.  When [SOLC_BASE_INSTALL_PATH] is set, it alone decides the
    paths: the home directory and the password database play no part.
    An empty value is honoured too, and gives a base install path
    relative to the working directory. *)
Theorem install_root_override (h1 h2 : Host) (root V : string) :
  dict_get (environ h1) "SOLC_BASE_INSTALL_PATH" = Some root ->
  (dict_get (environ h2) "SOLC_BASE_INSTALL_PATH" = Some root ->
   install_paths h1 V = install_paths h2 V)
  /\ (root = "" -> get_base_install_path h1 V = "solc-" ++ V)
  /\ (Str.endswith root "/" = true ->
      get_base_install_path h1 V = root ++ "solc-" ++ V)
  /\ (root <> "" -> Str.endswith root "/" = false ->
      get_base_install_path h1 V = root ++ "/solc-" ++ V).
Proof.
  intros H1.
  assert (B : forall h, dict_get (environ h) "SOLC_BASE_INSTALL_PATH" = Some root ->
                        get_base_install_path h V = root ++ glue root ++ "solc-" ++ V).
  { intros h Hh. unfold get_base_install_path, dict_mem. rewrite Hh.
    cbn [PosixPath.join fold_left]. now apply join_step_relative. }
  split; [| split; [| split]].
  - intros H2. unfold install_paths, derived_paths, get_built_executable_path,
      get_build_dir, get_executable_path, get_extract_path,
      get_release_zipfile_path, get_repository_path.
    now rewrite (B h1 H1), (B h2 H2).
  - intros ->. now rewrite (B h1 H1).
  - intros He. rewrite (B h1 H1). unfold glue. rewrite He, orb_true_r. reflexivity.
  - intros Hn He. rewrite (B h1 H1). unfold glue. rewrite He.
    apply truthy_nonempty in Hn. rewrite Hn. reflexivity.
Qed.

Lemma install_root_override_witness :
  install_paths demo_host V100_5_12
  = install_paths
      {| environ := [("SOLC_BASE_INSTALL_PATH", "/opt/solc")];
         pw_uid_dir := None; pw_name_dir := []; sys_platform := "darwin" |}
      V100_5_12.
Proof.
  exact (proj1 (install_root_override demo_host
                  {| environ := [("SOLC_BASE_INSTALL_PATH", "/opt/solc")];
                     pw_uid_dir := None; pw_name_dir := [];
                     sys_platform := "darwin" |}
                  "/opt/solc" V100_5_12 eq_refl)
               eq_refl).
Defined.

(** X4.  Without [SOLC_BASE_INSTALL_PATH] the base install path is
    [.py-helios-solc/solc-<identifier>] under the home directory:
    that of [HOME] when it is set, even to the empty string, else that of
    the password database; trailing separators of the home directory
    are dropped.  With neither, the tilde stays in the path. *)
Theorem default_install_root (h : Host) (V : string) :
  dict_get (environ h) "SOLC_BASE_INSTALL_PATH" = None ->
  (forall home, dict_get (environ h) "HOME" = Some home ->
     get_base_install_path h V
     = Str.rstrip "/" home ++ "/.py-helios-solc/solc-" ++ V)
  /\ (forall home, dict_get (environ h) "HOME" = None ->
        pw_uid_dir h = Some home ->
        get_base_install_path h V
        = Str.rstrip "/" home ++ "/.py-helios-solc/solc-" ++ V)
  /\ (dict_get (environ h) "HOME" = None -> pw_uid_dir h = None ->
      get_base_install_path h V = "~/.py-helios-solc/solc-" ++ V).
Proof.
  intros Hn. unfold get_base_install_path, dict_mem. rewrite Hn.
  assert (J : PosixPath.join "~" [".py-helios-solc"; "solc-" ++ V]
              = String "~" ("/.py-helios-solc/solc-" ++ V)) by reflexivity.
  assert (I : String.index 1 PosixPath.sep
                (String "~" ("/.py-helios-solc/solc-" ++ V)) = Some 1)
    by reflexivity.
  rewrite J. unfold PosixPath.expanduser. rewrite I. cbn [Nat.eqb].
  change (Str.startswith (String "~" ("/.py-helios-solc/solc-" ++ V)) "~")
    with true.
  cbn [negb]. rewrite from_one.
  split; [| split].
  - intros home ->. now rewrite truthy_append_r.
  - intros home -> ->. now rewrite truthy_append_r.
  - intros -> ->. reflexivity.
Qed.

Lemma default_install_root_witness :
  get_base_install_path home_host V100_5_12
  = "/home/dev/.py-helios-solc/solc-v100.5.12".
Proof.
  exact (proj1 (default_install_root home_host V100_5_12 eq_refl)
               "/home/dev/" eq_refl).
Defined.

(* ------------------------------------------------------------------ *)
(** ** The dispatcher as a whole *)
(* ------------------------------------------------------------------ *)

Section WholeDispatcher.

Context {FS : Type} {os : OS FS}.
Variable h : Host.
Local Open Scope py_scope.

(** X5.  For a platform given by the caller that is no key of the
    dispatch table, [install_solc] raises the unsupported-platform
    error, whose message names the platform and lists the keys of the
    table, sorted; this comes before any look at the identifier, and
    nothing has been done. *)
Theorem install_solc_unsupported_platform
    (platform identifier : string) (w : World FS) :
  dict_mem (INSTALL_FUNCTIONS (FS := FS) h) platform = false ->
  install_solc h identifier (Some platform) w
  = {| result :=
         Raise (ValueError
                  ("Installation of solidity is not supported on your platform ("
                     ++ platform ++ "). Supported platforms are: darwin, linux"));
       final := w;
       events := [] |}.
Proof.
  intros Hp. unfold install_solc, bind, ret. cbn [result final events].
  unfold dict_mem in Hp.
  destruct (dict_get (INSTALL_FUNCTIONS h) platform); [discriminate |].
  reflexivity.
Qed.

(** X6.  Under autodetection every [sys.platform] that starts with
    [linux] is installed as [linux], and [darwin] as [darwin]: the run
    is the one of the call with that platform given. *)
Theorem autodetect_known_platform (identifier : string) (w : World FS) :
  (Str.startswith (sys_platform h) "linux" = true ->
   install_solc h identifier None w = install_solc h identifier (Some LINUX) w)
  /\ (sys_platform h = OSX ->
      install_solc h identifier None w = install_solc h identifier (Some OSX) w).
Proof.
  split.
  - intros Hl. unfold install_solc, get_platform. now rewrite Hl.
  - intros Ho. unfold install_solc, get_platform. now rewrite Ho.
Qed.

(** X7.  For a registered pair, [install_solc] does what the registered
    strategy does and nothing more: the same events, the same final
    world; an exception of the strategy reaches the caller unchanged,
    and what the strategy returns is dropped for [None]. *)
Theorem install_solc_runs_the_strategy
    (platform : string) (versions : dict (M FS PyVal))
    (install_fn : M FS PyVal) (identifier : string) (w : World FS) :
  dict_get (INSTALL_FUNCTIONS h) platform = Some versions ->
  dict_get versions identifier = Some install_fn ->
  events (install_solc h identifier (Some platform) w) = events (install_fn w)
  /\ final (install_solc h identifier (Some platform) w) = final (install_fn w)
  /\ result (install_solc h identifier (Some platform) w)
     = match result (install_fn w) with
       | Return _ => Return PyNone
       | Raise e => Raise e
       end.
Proof.
  intros Hp Hv.
  assert (E : install_solc h identifier (Some platform) w
              = bind install_fn (fun _ => ret PyNone) w).
  { unfold install_solc. unfold bind at 1. cbn [ret result final events].
    rewrite Hp, Hv. destruct (bind _ _ w). reflexivity. }
  rewrite E. unfold bind, ret.
  destruct (result (install_fn w)); cbn [result final events];
    rewrite ?app_nil_r; repeat split.
Qed.

Lemma sound_install_solc identifier platform :
  sound any_event any_exn (install_solc h identifier platform).
Proof.
  unfold install_solc. apply sound_bind.
  - destruct platform as [p|]; [apply sound_of_flat, flat_ret |].
    unfold get_platform.
    repeat match goal with
           | |- sound _ _ (if ?b then _ else _) => destruct b
           end;
      apply sound_of_flat; (apply flat_ret || (apply flat_raise; exact I)).
  - intros p. unfold INSTALL_FUNCTIONS.
    repeat (cbn [dict_get];
            match goal with
            | |- sound _ _ (match (if ?b then _ else _) with _ => _ end) =>
                destruct b
            end).
    all: cbn [dict_get].
    all: try (apply sound_of_flat, flat_raise; exact I).
    all: apply sound_bind; [| intros; apply sound_of_flat, flat_ret].
    all: unfold install_v100_5_12_linux, install_v100_5_15_linux,
           install_v100_5_12_osx, install_v100_5_15_osx; sound_auto.
Qed.


(** X9.  No failure of an external program is swallowed: when a command
    started during [install_solc] exits with a nonzero status,
    [install_solc] raises the [CalledProcessError] of that command and
    that status, unless the [os.chdir] back to the directory it started
    in failed after the command: then it raises the [OSError] of that
    call.  Where the directory can always be entered, it is the
    [CalledProcessError]. *)
Theorem install_solc_fails_fast
    (identifier : string) (platform : option string) (w : World FS)
    (cmd : list string) (rc : Z) :
  In (EvSpawn cmd (Some rc)) (events (install_solc h identifier platform w)) ->
  rc <> 0%Z ->
  ((exists out,
      result (install_solc h identifier platform w)
      = Raise (CalledProcessError rc cmd out None))
   \/ restore_failed (cwd w) (install_solc h identifier platform w))
  /\ (can_always_enter (cwd w) ->
      exists out,
        result (install_solc h identifier platform w)
        = Raise (CalledProcessError rc cmd out None)).
Proof.
  intros Hin Hrc.
  pose proof (sound_install_solc identifier platform) as S.
  destruct (S w) as (_ & _ & _ & F).
  split; [now apply F |].
  intros Hhome. now apply (sound_at_home _ _ _ w S Hhome).
Qed.

End WholeDispatcher.

Lemma install_solc_unsupported_platform_witness :
  install_solc (os := Toy.toy_os Toy.tools) demo_host V100_5_12 (Some WINDOWS)
               Toy.clean_box
  = {| result :=
         Raise (ValueError
                  "Installation of solidity is not supported on your platform (win32). Supported platforms are: darwin, linux");
       final := Toy.clean_box;
       events := [] |}.
Proof.
  exact (install_solc_unsupported_platform (os := Toy.toy_os Toy.tools)
           demo_host WINDOWS V100_5_12 Toy.clean_box eq_refl).
Defined.

Lemma autodetect_known_platform_witness :
  install_solc (os := Toy.toy_os Toy.tools) demo_host V100_5_12 None Toy.clean_box
  = install_solc (os := Toy.toy_os Toy.tools) demo_host V100_5_12 (Some LINUX)
                 Toy.clean_box.
Proof.
  exact (proj1 (autodetect_known_platform (os := Toy.toy_os Toy.tools)
                  demo_host V100_5_12 Toy.clean_box) eq_refl).
Defined.

Lemma install_solc_runs_the_strategy_witness :
  events (install_solc (os := Toy.toy_os Toy.tools_make_fails) home_host
            V100_5_12 (Some OSX) Toy.clean_box)
  = events (install_from_source (os := Toy.toy_os Toy.tools_make_fails)
              home_host V100_5_12 Toy.clean_box).
Proof.
  exact (proj1 (install_solc_runs_the_strategy
                  (os := Toy.toy_os Toy.tools_make_fails) home_host OSX _ _
                  V100_5_12 Toy.clean_box eq_refl eq_refl)).
Defined.


Lemma install_solc_fails_fast_witness :
  exists out,
    result (install_solc (os := Toy.toy_os Toy.tools_make_fails) home_host
              V100_5_12 None (set_cwd "/" Toy.clean_box))
    = Raise (CalledProcessError 2 make_command out None).
Proof.
  assert (I : In (EvSpawn make_command (Some 2%Z))
                 (events (install_solc (os := Toy.toy_os Toy.tools_make_fails)
                            home_host V100_5_12 None
                            (set_cwd "/" Toy.clean_box)))).
  { vm_compute. do 8 right. left. reflexivity. }
  exact (proj2 (install_solc_fails_fast (os := Toy.toy_os Toy.tools_make_fails)
                  home_host V100_5_12 None (set_cwd "/" Toy.clean_box)
                  make_command 2 I ltac:(discriminate))
           (fun _ => eq_refl)).
Defined.

(* ------------------------------------------------------------------ *)
(** ** The static install *)
(* ------------------------------------------------------------------ *)

Section Footprints.

Context {FS : Type} {os : OS FS}.
Variables (P : Event -> Prop) (R : Exn -> Prop).
Hypothesis R_os_error : forall msg, R (OSError msg).
Local Open Scope py_scope.

Lemma flat_ensure_path_exists_at (dir_path : string) :
  P (EvMakedirs dir_path) -> flat P R (ensure_path_exists dir_path).
Proof.
  intros HP. unfold ensure_path_exists. apply flat_bind.
  - apply flat_reading. discriminate.
  - intros present. destruct present; cbn [negb].
    + apply flat_ret.
    + apply flat_bind; [| intros; apply flat_ret].
      now apply flat_mutating.
Qed.

Lemma flat_ensure_parent_dir_exists_at (path : string) :
  P (EvMakedirs (PosixPath.dirname path)) ->
  flat P R (ensure_parent_dir_exists path).
Proof.
  intros HP. unfold ensure_parent_dir_exists. apply flat_bind.
  - now apply flat_ensure_path_exists_at.
  - intros. apply flat_ret.
Qed.

Lemma flat_chmod_plus_x_at (path : string) :
  (forall mode, P (EvChmod path mode)) -> flat P R (chmod_plus_x path).
Proof.
  intros HP. unfold chmod_plus_x. apply flat_bind.
  - apply flat_reading. intros w e.
    destruct (os_stat_mode path w); [intros [= <-]; apply R_os_error | discriminate].
  - intros mode. apply flat_mutating; auto.
Qed.

(** A computation whose runs that return have logged an event in [P]. *)
Lemma logs_bind_l {A B} (m : M FS A) (k : A -> M FS B) :
  logs_on_return P m -> logs_on_return P (bind m k).
Proof.
  intros Hm w v. unfold bind. specialize (Hm w).
  destruct (result (m w)) as [a|e]; cbn; [| discriminate].
  intros _. apply Exists_app. left. now apply (Hm a).
Qed.

Lemma logs_bind_r {A B} (m : M FS A) (k : A -> M FS B) :
  (forall a, logs_on_return P (k a)) -> logs_on_return P (bind m k).
Proof.
  intros Hk w v. unfold bind.
  destruct (result (m w)) as [a|e]; cbn; [| discriminate].
  intros Hr. apply Exists_app. right. now apply (Hk a _ v).
Qed.

Lemma logs_chdir {A} (path : string) (body : M FS A) :
  logs_on_return P body -> logs_on_return P (chdir path body).
Proof.
  intros Hb w v.
  change (wp (chdir path body)
             (fun res _ E => res = Return v -> Exists P E) w).
  apply wp_chdir.
  - discriminate.
  - intros _ msg _. split; discriminate.
  - intros _ _. unfold wp. split; [intros _ Hr | discriminate].
    apply Exists_cons_tl, Exists_app. left. now apply (Hb _ v).
Qed.

Lemma logs_mutating (ev : Event) (op : World FS -> string + FS) :
  P ev -> logs_on_return P (mutating ev op).
Proof.
  intros HP w v. unfold mutating.
  destruct (op w); cbn; [discriminate | intros _; now constructor].
Qed.

Lemma logs_check_subprocess_call command message stderr kw :
  P (EvSpawn command (Some 0%Z)) ->
  logs_on_return P (check_subprocess_call command message stderr kw).
Proof.
  intros HP. unfold check_subprocess_call. apply logs_bind_r. intros _ w v.
  unfold subprocess_check_call.
  destruct (os_exec command kw w) as [msg|c]; cbn; [discriminate |].
  destruct (Z.eqb_spec (returncode_of c) 0) as [-> | _]; [| discriminate].
  intros _. now constructor.
Qed.

End Footprints.

(** Side conditions: the event or the exception is one of those
    allowed. *)
Ltac allowed :=
  intros; hnf;
  first [ exact I
        | reflexivity
        | (left; reflexivity)
        | (right; reflexivity)
        | (split; reflexivity)
        | (split; [reflexivity | left; split; reflexivity])
        | (split; [reflexivity | right; split; [reflexivity | eauto]]) ].

Ltac spawn_cases H :=
  cbn [app In] in H;
  repeat match type of H with
         | _ \/ _ => destruct H as [H | H]
         end;
  try discriminate H; try contradiction.

Section StaticInstall.

Context {FS : Type} {os : OS FS}.
Variable h : Host.
Local Open Scope py_scope.

Lemma flat_download_static_release identifier :
  flat (download_event h identifier) carries_no_output
        (download_static_release h identifier).
Proof.
  unfold download_static_release. apply flat_bind.
  - apply flat_ensure_parent_dir_exists_at; allowed.
  - intros _. apply flat_check_subprocess_call; allowed.
Qed.

Lemma flat_install_solc_from_static_linux identifier :
  flat (static_install_event h identifier) (static_install_exn h identifier)
        (install_solc_from_static_linux h identifier).
Proof.
  unfold install_solc_from_static_linux, download_static_release.
  apply flat_bind; [apply flat_bind |].
  - apply flat_ensure_parent_dir_exists_at; allowed.
  - intros _. apply flat_check_subprocess_call; allowed.
  - intros _. apply flat_bind; [| intros _; apply flat_bind].
    + apply flat_chmod_plus_x_at; allowed.
    + apply flat_check_subprocess_output; allowed.
    + intros _. apply flat_bind; [apply flat_print | intros; apply flat_ret].
Qed.

(** X10.  The calls of the static install stay with its own
    executable: [os.makedirs] is called with the directory of the
    executable path only, the only commands it starts are the download
    and the version check, [os.chmod] is called on the executable path
    only; it never calls [os.chdir] and never asks for a link. *)
Theorem static_install_footprint (identifier : string) (w : World FS) :
  Forall (static_install_event h identifier)
         (events (install_solc_from_static_linux h identifier w)).
Proof. apply (flat_install_solc_from_static_linux identifier w). Qed.

Lemma download_is_not_version_check identifier :
  download_command h identifier <> version_command h identifier.
Proof. discriminate. Qed.

Lemma wp_mutating (ev : Event) (op : World FS -> string + FS) Q (w : World FS) :
  (forall msg, op w = inl msg -> Q (Raise (OSError msg)) w [ev]) ->
  (forall f, op w = inr f -> Q (Return tt) (set_fs f w) [ev]) ->
  wp (mutating ev op) Q w.
Proof.
  intros Hl Hr. unfold wp, mutating.
  destruct (op w) as [msg|f]; [now apply Hl | now apply Hr].
Qed.


Lemma flat_after_download identifier :
  flat any_event (version_check_exn h identifier)
        (chmod_plus_x (get_executable_path h identifier);;
         check_subprocess_output (version_command h identifier)
           (Some ("Checking installed executable version @ "
                    ++ get_executable_path h identifier)) R_STDOUT [];;
         print (linux_success_line (get_executable_path h identifier));;
         ret PyNone).
Proof.
  apply flat_bind; [| intros _; apply flat_bind].
  - apply flat_chmod_plus_x_at; allowed.
  - apply flat_check_subprocess_output; allowed.
  - intros _. apply flat_bind; [apply flat_print | intros; apply flat_ret].
Qed.

(** X12.  When the download exits with a nonzero status, the static
    install raises the [CalledProcessError] of the download, with that
    status and no output, and stops there: the mode of the executable
    has not been touched and the version check has not been started. *)
Theorem failing_download_stops_static_install
    (identifier : string) (w : World FS) (rc : Z) :
  In (EvSpawn (download_command h identifier) (Some rc))
     (events (install_solc_from_static_linux h identifier w)) ->
  rc <> 0%Z ->
  result (install_solc_from_static_linux h identifier w)
  = Raise (CalledProcessError rc (download_command h identifier) None None)
  /\ Forall (download_event h identifier)
            (events (install_solc_from_static_linux h identifier w)).
Proof.
  intros Hin Hrc.
  destruct (flat_install_solc_from_static_linux identifier w)
    as (_ & _ & Rr & F).
  destruct (F _ _ Hin Hrc) as (out & Hout).
  assert (out = None) as ->.
  { destruct (Rr _ Hout) as (_ & [[_ Ho] | [Hc _]]); [exact Ho |].
    now apply download_is_not_version_check in Hc. }
  split; [exact Hout |].
  revert Hout.
  change (wp (install_solc_from_static_linux h identifier)
             (fun res _ E =>
                res = Raise (CalledProcessError rc (download_command h identifier)
                               None None) ->
                Forall (download_event h identifier) E) w).
  unfold install_solc_from_static_linux.
  destruct (flat_download_static_release identifier w) as (_ & Ed & _).
  apply wp_bind_run; [intros _ _ | intros _ _ _; exact Ed].
  destruct (flat_after_download identifier
              (final (download_static_release h identifier w)))
    as (_ & _ & Rt & _).
  unfold wp. intros Hr. apply Rt in Hr.
  now apply download_is_not_version_check in Hr.
Qed.

(** X13.  When the version check exits with a nonzero status, the static
    install raises its [CalledProcessError], with that status and with
    what the version check wrote on both of its streams, merged. *)
Theorem failing_version_check_is_reported
    (identifier : string) (w : World FS) (rc : Z) :
  In (EvSpawn (version_command h identifier) (Some rc))
     (events (install_solc_from_static_linux h identifier w)) ->
  rc <> 0%Z ->
  exists wv cv,
    cwd wv = cwd w
    /\ os_exec (version_command h identifier) [] wv = Exited cv
    /\ returncode_of cv = rc
    /\ result (install_solc_from_static_linux h identifier w)
       = Raise (CalledProcessError rc (version_command h identifier)
                  (Some (String.concat "" (merged (chunks cv)))) None).
Proof.
  intros Hin Hrc. revert Hin.
  set (exe := get_executable_path h identifier).
  set (Q := fun (res : Result PyVal) (_ : World FS) (E : list Event) =>
         In (EvSpawn (version_command h identifier) (Some rc)) E ->
         exists wv cv,
           cwd wv = cwd w
           /\ os_exec (version_command h identifier) [] wv = Exited cv
           /\ returncode_of cv = rc
           /\ res = Raise (CalledProcessError rc (version_command h identifier)
                             (Some (String.concat "" (merged (chunks cv))))
                             None)).
  change (wp (install_solc_from_static_linux h identifier) Q w).
  unfold install_solc_from_static_linux, download_static_release,
    ensure_parent_dir_exists, ensure_path_exists, chmod_plus_x,
    check_subprocess_call, check_subprocess_output.
  fold exe.
  do 4 apply wp_bind. apply wp_reading. cbv beta iota.
  destruct (os_path_exists (PosixPath.dirname exe) w); cbn [negb];
    [ apply wp_ret
    | apply wp_bind, wp_mutating;
      [ intros msg _; cbv beta iota; intros Hx; spawn_cases Hx
      | intros f _; cbv beta iota; apply wp_ret ] ].
  all: cbv beta iota; apply wp_ret; cbv beta iota.
  (* the download *)
  all: apply wp_bind, wp_announce; cbv beta iota.
  all: apply wp_subprocess_check_call;
    [ intros msg _; cbv beta iota; intros Hx; spawn_cases Hx
    | intros cd _ ].
  all: destruct (Z.eqb_spec (returncode_of cd) 0) as [_ | _]; cbv beta iota;
    [| intros Hx; spawn_cases Hx ].
  (* the mode *)
  all: do 2 apply wp_bind; apply wp_reading.
  all: match goal with
       | |- context [os_stat_mode ?p ?w0] =>
           destruct (os_stat_mode p w0) as [msg|mode]
       end; cbv beta iota; [ intros Hx; spawn_cases Hx |].
  all: apply wp_mutating;
    [ intros msg _; cbv beta iota; intros Hx; spawn_cases Hx
    | intros f' _; cbv beta iota ].
  (* the version check *)
  all: do 2 apply wp_bind; apply wp_announce; cbv beta iota.
  all: apply wp_subprocess_check_output;
    [ reflexivity | reflexivity
    | intros msg _; cbv beta iota; intros Hx; spawn_cases Hx
    | intros cv Hcv ].
  all: destruct (Z.eqb_spec (returncode_of cv) 0) as [Zv | _]; cbv beta iota.
  all: try (apply wp_bind, wp_print; cbv beta iota; apply wp_ret).
  all: unfold Q; intros Hx; spawn_cases Hx.
  all: injection Hx as Hx.
  all: try (exfalso; congruence).
  all: eexists; exists cv; split; [| split; [exact Hcv | split; [exact Hx |]]];
    [reflexivity |].
  all: rewrite Hx; cbn [stderr_dest]; unfold captured; now rewrite routed_all.
Qed.

End StaticInstall.


Lemma failing_download_stops_static_install_witness :
  result (install_solc_from_static_linux (os := Toy.toy_os tools_download_fails)
            demo_host V100_5_12 Toy.clean_box)
  = Raise (CalledProcessError 4 (download_command demo_host V100_5_12) None None)
  /\ Forall (download_event demo_host V100_5_12)
            (events (install_solc_from_static_linux
                       (os := Toy.toy_os tools_download_fails)
                       demo_host V100_5_12 Toy.clean_box)).
Proof.
  apply (failing_download_stops_static_install
           (os := Toy.toy_os tools_download_fails) demo_host V100_5_12
           Toy.clean_box 4).
  - vm_compute. right. left. reflexivity.
  - discriminate.
Defined.

Lemma failing_version_check_is_reported_witness :
  exists wv cv,
    cwd wv = cwd Toy.clean_box
    /\ os_exec (OS := Toy.toy_os tools_version_fails)
         (version_command demo_host V100_5_12) [] wv = Exited cv
    /\ returncode_of cv = 126%Z
    /\ result (install_solc_from_static_linux (os := Toy.toy_os tools_version_fails)
                 demo_host V100_5_12 Toy.clean_box)
       = Raise (CalledProcessError 126 (version_command demo_host V100_5_12)
                  (Some (String.concat "" (merged (chunks cv)))) None).
Proof.
  apply (failing_version_check_is_reported
           (os := Toy.toy_os tools_version_fails) demo_host V100_5_12
           Toy.clean_box 126).
  - vm_compute. do 3 right. left. reflexivity.
  - discriminate.
Defined.

(* ------------------------------------------------------------------ *)
(** ** The source build, when it goes through *)
(* ------------------------------------------------------------------ *)

Lemma no_link_in (E : list Event) (src dst : string) :
  Forall not_symlink E -> ~ In (EvSymlink src dst) E.
Proof.
  intros HF Hin. rewrite Forall_forall in HF. specialize (HF _ Hin).
  discriminate HF.
Qed.

(** A link among events that hold none. *)
Ltac no_link H :=
  repeat first
    [ (now apply no_link_in in H)
    | (apply in_app_or in H as [H | H]) ].

Section SourceSuccess.

Context {FS : Type} {os : OS FS}.
Variable h : Host.
Local Open Scope py_scope.

Lemma logs_raise {A} (P : Event -> Prop) (e : Exn) :
  logs_on_return P (raise (FS := FS) (A := A) e).
Proof. intros w v. discriminate. Qed.

Lemma install_solc_dependencies_logs identifier :
  logs_on_return
    (eq (EvSpawn (install_deps_command (get_repository_path h identifier))
                 (Some 0%Z)))
    (install_solc_dependencies h identifier).
Proof.
  unfold install_solc_dependencies. apply logs_bind_r. intros git.
  destruct git; cbn [negb]; [| apply logs_raise].
  apply logs_chdir. now apply logs_check_subprocess_call.
Qed.

(** What the build step has logged when it returns: [cmake ..] and
    [make] with status 0, and the link. *)
Lemma build_solc_from_source_logs identifier (ev : Event) :
  ev = EvSpawn cmake_command (Some 0%Z)
  \/ ev = EvSpawn make_command (Some 0%Z)
  \/ ev = EvSymlink (get_built_executable_path h identifier)
                    (get_executable_path h identifier) ->
  logs_on_return (eq ev) (build_solc_from_source h identifier).
Proof.
  intros Hev. unfold build_solc_from_source.
  do 3 (apply logs_bind_r; intros ?).
  destruct Hev as [-> | [-> | ->]].
  - apply logs_bind_l, logs_chdir, logs_bind_l.
    now apply logs_check_subprocess_call.
  - apply logs_bind_l, logs_chdir, logs_bind_r. intros _.
    now apply logs_check_subprocess_call.
  - do 3 (apply logs_bind_r; intros ?).
    apply logs_bind_l. now apply logs_mutating.
Qed.

(** X14.  When the Source Build strategy returns, the dependency
    script, [cmake ..] and [make] have each exited with status 0 and
    the link from the executable path to the built executable has been
    made; what it returns is [None]. *)
Theorem source_build_success (identifier : string) (w : World FS) (v : PyVal) :
  result (install_from_source h identifier w) = Return v ->
  v = PyNone
  /\ In (EvSpawn (install_deps_command (get_repository_path h identifier))
                 (Some 0%Z))
        (events (install_from_source h identifier w))
  /\ In (EvSpawn cmake_command (Some 0%Z))
        (events (install_from_source h identifier w))
  /\ In (EvSpawn make_command (Some 0%Z))
        (events (install_from_source h identifier w))
  /\ In (EvSymlink (get_built_executable_path h identifier)
                   (get_executable_path h identifier))
        (events (install_from_source h identifier w)).
Proof.
  intros Hr.
  assert (B : forall ev,
             logs_on_return (eq ev) (build_solc_from_source h identifier) ->
             In ev (events (install_from_source h identifier w))).
  { intros ev L.
    assert (L' : logs_on_return (eq ev) (install_from_source h identifier)).
    { unfold install_from_source. do 3 (apply logs_bind_r; intros ?).
      now apply logs_bind_l. }
    destruct (proj1 (Exists_exists _ _) (L' w v Hr)) as (e & Hin & <-).
    exact Hin. }
  split; [| split; [| repeat split]].
  - revert Hr.
    change (wp (install_from_source h identifier)
               (fun res _ _ => res = Return v -> v = PyNone) w).
    unfold install_from_source.
    repeat (apply wp_bind_run; [intros ? _ | discriminate]).
    apply wp_ret. now intros [= <-].
  - assert (L : logs_on_return
                  (eq (EvSpawn (install_deps_command
                                  (get_repository_path h identifier)) (Some 0%Z)))
                  (install_from_source h identifier)).
    { unfold install_from_source. do 2 (apply logs_bind_r; intros ?).
      apply logs_bind_l, install_solc_dependencies_logs. }
    destruct (proj1 (Exists_exists _ _) (L w v Hr)) as (e & Hin & <-).
    exact Hin.
  - apply B, build_solc_from_source_logs. auto.
  - apply B, build_solc_from_source_logs. auto.
  - apply B, build_solc_from_source_logs. auto.
Qed.

(** X15.  The build step links only what it has just built: when a link
    has been made during a run, it is the one from the executable path
    to the built executable, and [cmake ..] and [make] have both exited
    with status 0 in that run, whatever happens afterwards. *)
Theorem link_only_after_build
    (identifier : string) (w : World FS) (src dst : string) :
  In (EvSymlink src dst) (events (build_solc_from_source h identifier w)) ->
  src = get_built_executable_path h identifier
  /\ dst = get_executable_path h identifier
  /\ In (EvSpawn cmake_command (Some 0%Z))
        (events (build_solc_from_source h identifier w))
  /\ In (EvSpawn make_command (Some 0%Z))
        (events (build_solc_from_source h identifier w)).
Proof.
  change (wp (build_solc_from_source h identifier)
             (fun _ _ E =>
                In (EvSymlink src dst) E ->
                src = get_built_executable_path h identifier
                /\ dst = get_executable_path h identifier
                /\ In (EvSpawn cmake_command (Some 0%Z)) E
                /\ In (EvSpawn make_command (Some 0%Z)) E) w).
  unfold build_solc_from_source.
  apply wp_bind, wp_reading. cbv beta iota. cbn [app].
  (* the clone, when there is no checkout *)
  match goal with
  | |- wp (bind ?m _) _ ?w0 =>
      assert (S1 : sound not_symlink any_exn m) by sound_auto;
      destruct (S1 w0) as (_ & E1 & _); clear S1
  end.
  apply wp_bind_run; [intros _ _ | intros _ _ Hin; exfalso; no_link Hin].
  (* the build directory *)
  match goal with
  | |- wp (bind ?m _) _ ?w0 =>
      assert (S2 : sound not_symlink any_exn m) by sound_auto;
      destruct (S2 w0) as (_ & E2 & _); clear S2
  end.
  apply wp_bind_run;
    [intros _ _ | intros _ _ Hin; exfalso; no_link Hin].
  (* cmake and make, in the build directory *)
  match goal with
  | |- wp (bind ?m _) _ ?w0 =>
      assert (S3 : sound not_symlink any_exn m) by sound_auto;
      destruct (S3 w0) as (_ & E3 & _); clear S3;
      assert (L1 : logs_on_return (eq (EvSpawn cmake_command (Some 0%Z))) m)
        by (apply logs_chdir, logs_bind_l; now apply logs_check_subprocess_call);
      assert (L2 : logs_on_return (eq (EvSpawn make_command (Some 0%Z))) m)
        by (apply logs_chdir, logs_bind_r; intros _;
            now apply logs_check_subprocess_call);
      specialize (L1 w0); specialize (L2 w0)
  end.
  apply wp_bind_run;
    [intros a Ha | intros _ _ Hin; exfalso; no_link Hin].
  destruct (proj1 (Exists_exists _ _) (L1 a Ha)) as (e1 & C1 & <-).
  destruct (proj1 (Exists_exists _ _) (L2 a Ha)) as (e2 & C2 & <-).
  (* what follows links the built executable, and nothing else *)
  match goal with
  | |- wp ?m _ ?w0 =>
      assert (S4 : flat (link_event h identifier) any_exn m)
        by (cbv zeta; repeat first
              [ apply flat_ret
              | (apply flat_chmod_plus_x_at; allowed)
              | (apply flat_ensure_parent_dir_exists_at; allowed)
              | (apply flat_mutating; allowed)
              | (apply flat_bind; [| intros ?]) ]);
      destruct (S4 w0) as (_ & E4 & _); clear S4
  end.
  unfold wp. intros Hin.
  apply in_app_or in Hin as [Hin | Hin]; [exfalso; no_link Hin |].
  apply in_app_or in Hin as [Hin | Hin]; [exfalso; no_link Hin |].
  apply in_app_or in Hin as [Hin | Hin]; [exfalso; no_link Hin |].
  rewrite Forall_forall in E4. destruct (E4 _ Hin) as [-> ->].
  repeat split; apply in_or_app; right; apply in_or_app; right;
    apply in_or_app; left; assumption.
Qed.

End SourceSuccess.

Lemma source_build_success_witness :
  PyNone = PyNone
  /\ In (EvSpawn (install_deps_command (get_repository_path home_host V100_5_12))
                 (Some 0%Z))
        (events (install_from_source (os := Toy.toy_os Toy.tools) home_host
                   V100_5_12 Toy.clean_box))
  /\ In (EvSpawn cmake_command (Some 0%Z))
        (events (install_from_source (os := Toy.toy_os Toy.tools) home_host
                   V100_5_12 Toy.clean_box))
  /\ In (EvSpawn make_command (Some 0%Z))
        (events (install_from_source (os := Toy.toy_os Toy.tools) home_host
                   V100_5_12 Toy.clean_box))
  /\ In (EvSymlink (get_built_executable_path home_host V100_5_12)
                   (get_executable_path home_host V100_5_12))
        (events (install_from_source (os := Toy.toy_os Toy.tools) home_host
                   V100_5_12 Toy.clean_box)).
Proof.
  exact (source_build_success (os := Toy.toy_os Toy.tools) home_host V100_5_12
           Toy.clean_box PyNone eq_refl).
Defined.

Lemma link_only_after_build_witness :
  get_built_executable_path home_host V100_5_12
  = get_built_executable_path home_host V100_5_12
  /\ get_executable_path home_host V100_5_12
     = get_executable_path home_host V100_5_12
  /\ In (EvSpawn cmake_command (Some 0%Z))
        (events (build_solc_from_source (os := Toy.toy_os Toy.tools) home_host
                   V100_5_12 Toy.box_with_checkout))
  /\ In (EvSpawn make_command (Some 0%Z))
        (events (build_solc_from_source (os := Toy.toy_os Toy.tools) home_host
                   V100_5_12 Toy.box_with_checkout)).
Proof.
  apply (link_only_after_build (os := Toy.toy_os Toy.tools) home_host V100_5_12
           Toy.box_with_checkout).
  vm_compute. do 7 right. left. reflexivity.
Defined.

(* ------------------------------------------------------------------ *)
(** ** The system utilities *)
(* ------------------------------------------------------------------ *)

Lemma testbit_S_IEXEC (i : Z) : Z.testbit S_IEXEC i = Z.eqb 6 i.
Proof. change S_IEXEC with (2 ^ 6)%Z. apply Z.pow2_bits_eqb. lia. Qed.

Section Utilities.

Context {FS : Type} {os : OS FS}.
Variable h : Host.
Local Open Scope py_scope.

(** X16.  [ensure_path_exists] returns [True] exactly when it has made
    the directory, and [False] when the path was there: then it has
    done nothing.  Where a directory that [os.makedirs] has made exists
    afterwards, calling it again after it returned does nothing and
    returns [False]. *)
Theorem ensure_path_exists_once (dir_path : string) (w : World FS) (b : bool) :
  result (ensure_path_exists dir_path w) = Return b ->
  (b = true <-> events (ensure_path_exists dir_path w) = [EvMakedirs dir_path])
  /\ (b = false <->
      os_path_exists dir_path w = true
      /\ events (ensure_path_exists dir_path w) = []
      /\ final (ensure_path_exists dir_path w) = w)
  /\ (makedirs_makes dir_path ->
      ensure_path_exists dir_path (final (ensure_path_exists dir_path w))
      = {| result := Return false;
           final := final (ensure_path_exists dir_path w);
           events := [] |}).
Proof.
  unfold ensure_path_exists, bind, reading, mutating, ret. cbn [result final events].
  destruct (os_path_exists dir_path w) eqn:Hx; cbn [negb result final events].
  - intros [= <-]. rewrite Hx. cbn [negb result final events].
    repeat split; try discriminate; auto.
  - destruct (os_makedirs dir_path w) as [msg|f] eqn:Hm;
      cbn [result final events]; [discriminate |].
    intros [= <-]. repeat split; try discriminate; auto.
    + now intros (Hc & _).
    + intros L. rewrite (L w f Hm). reflexivity.
Qed.

(** X17.  [chmod_plus_x] asks for the mode the file has with the
    owner-execute bit (0o100) set: that bit is set, every other bit is
    as it was, and a mode that had the bit is asked for again
    unchanged.  When the file cannot be examined, the [OSError] is
    raised and no mode is changed. *)
Theorem chmod_plus_x_sets_owner_exec (path : string) (w : World FS) :
  (forall mode, os_stat_mode path w = inr mode ->
     events (chmod_plus_x path w) = [EvChmod path (Z.lor mode S_IEXEC)]
     /\ Z.testbit (Z.lor mode S_IEXEC) 6 = true
     /\ (forall i, i <> 6%Z ->
           Z.testbit (Z.lor mode S_IEXEC) i = Z.testbit mode i)
     /\ (Z.testbit mode 6 = true -> Z.lor mode S_IEXEC = mode))
  /\ (forall msg, os_stat_mode path w = inl msg ->
        chmod_plus_x path w
        = {| result := Raise (OSError msg); final := w; events := [] |}).
Proof.
  split.
  - intros mode Hs. split; [| split; [| split]].
    + unfold chmod_plus_x, bind, reading, mutating. cbn [result final events].
      rewrite Hs. cbn [result final events].
      now destruct (os_chmod path (Z.lor mode S_IEXEC) w).
    + rewrite Z.lor_spec, testbit_S_IEXEC. apply orb_true_r.
    + intros i Hi. rewrite Z.lor_spec, testbit_S_IEXEC.
      destruct (Z.eqb_spec 6 i); [congruence | apply orb_false_r].
    + intros Hb. apply Z.bits_inj'. intros i _.
      rewrite Z.lor_spec, testbit_S_IEXEC.
      destruct (Z.eqb_spec 6 i) as [<- | _];
        [now rewrite Hb | apply orb_false_r].
  - intros msg Hs. unfold chmod_plus_x, bind, reading. cbn [result final events].
    now rewrite Hs.
Qed.

End Utilities.

Lemma ensure_path_exists_once_witness :
  (true = true <->
   events (ensure_path_exists (os := Toy.toy_os Toy.tools) "/opt/solc" bare_box)
   = [EvMakedirs "/opt/solc"])
  /\ (true = false <->
      os_path_exists (OS := Toy.toy_os Toy.tools) "/opt/solc" bare_box = true
      /\ events (ensure_path_exists (os := Toy.toy_os Toy.tools) "/opt/solc" bare_box) = []
      /\ final (ensure_path_exists (os := Toy.toy_os Toy.tools) "/opt/solc" bare_box)
         = bare_box)
  /\ (makedirs_makes (os := Toy.toy_os Toy.tools) "/opt/solc" ->
      ensure_path_exists (os := Toy.toy_os Toy.tools) "/opt/solc"
        (final (ensure_path_exists (os := Toy.toy_os Toy.tools) "/opt/solc" bare_box))
      = {| result := Return false;
           final := final (ensure_path_exists (os := Toy.toy_os Toy.tools)
                             "/opt/solc" bare_box);
           events := [] |}).
Proof.
  exact (ensure_path_exists_once (os := Toy.toy_os Toy.tools) "/opt/solc"
           bare_box true eq_refl).
Defined.

Section Lookup.

Context {FS : Type} {os : OS FS}.
Variable h : Host.
Local Open Scope py_scope.

Lemma search_path_true_iff (program : string) (paths : list string)
    (w : World FS) :
  search_path program paths w = true
  <-> exists entry,
        In entry paths
        /\ is_exe (PosixPath.join (Str.strip double_quote entry) [program]) w
           = true.
Proof.
  induction paths as [|p rest IH]; cbn [search_path In].
  - split; [discriminate | now intros (? & [] & _)].
  - destruct (is_exe (PosixPath.join (Str.strip double_quote p) [program]) w)
      eqn:He.
    + split; [| reflexivity]. intros _. exists p. auto.
    + rewrite IH. split.
      * intros (e & Hin & Hx). exists e. auto.
      * intros (e & [<- | Hin] & Hx); [congruence | exists e; auto].
Qed.

Lemma is_executable_available_bare (program : string) (w : World FS) :
  Str.contains "/" program = false ->
  is_executable_available h program w
  = match dict_get (environ h) "PATH" with
    | None => {| result := Raise (KeyError "PATH"); final := w; events := [] |}
    | Some path_var =>
        {| result := Return (search_path program (Str.split ":" path_var) w);
           final := w; events := [] |}
    end.
Proof.
  intros Hc. unfold is_executable_available.
  rewrite dirname_truthy, Hc.
  now destruct (dict_get (environ h) "PATH").
Qed.

(** X18.  [is_executable_available]: a program given with a directory
    part is looked at where it is, and [PATH] is not read, be it set or
    not; a bare name is searched for in the entries of [PATH], split at
    [:] and stripped of double quotes, and is found exactly when one of
    them holds an executable file of that name; with [PATH] unset the
    search for a bare name raises [KeyError]. *)
Theorem is_executable_available_lookup (program : string) (w : World FS) :
  (Str.contains "/" program = true ->
   is_executable_available h program w
   = {| result := Return (is_exe program w); final := w; events := [] |})
  /\ (Str.contains "/" program = false ->
      forall path_var, dict_get (environ h) "PATH" = Some path_var ->
      exists found,
        is_executable_available h program w
        = {| result := Return found; final := w; events := [] |}
        /\ (found = true <->
            exists entry,
              In entry (Str.split ":" path_var)
              /\ is_exe (PosixPath.join (Str.strip double_quote entry) [program]) w
                 = true))
  /\ (Str.contains "/" program = false ->
      dict_get (environ h) "PATH" = None ->
      is_executable_available h program w
      = {| result := Raise (KeyError "PATH"); final := w; events := [] |}).
Proof.
  split; [| split].
  - intros Hc. unfold is_executable_available. now rewrite dirname_truthy, Hc.
  - intros Hc path_var Hp. rewrite (is_executable_available_bare _ _ Hc), Hp.
    eexists. split; [reflexivity | apply search_path_true_iff].
  - intros Hc Hp. now rewrite (is_executable_available_bare _ _ Hc), Hp.
Qed.

(** X19.  Both functions that need [git] look for it first and stop
    before doing anything when the search does not find it: with the
    [OSError] of the source when [git] is in no entry of [PATH], and
    with the [KeyError] of the search itself when [PATH] is unset. *)
Theorem git_required (identifier : string) (w : World FS) :
  (result (is_executable_available h "git" w) = Return false ->
   clone_solidity_repository h identifier w
   = {| result := Raise git_missing_error; final := w; events := [] |}
   /\ initialize_repository_submodules h identifier w
      = {| result := Raise git_missing_error; final := w; events := [] |})
  /\ (dict_get (environ h) "PATH" = None ->
      clone_solidity_repository h identifier w
      = {| result := Raise (KeyError "PATH"); final := w; events := [] |}
      /\ initialize_repository_submodules h identifier w
         = {| result := Raise (KeyError "PATH"); final := w; events := [] |}).
Proof.
  unfold clone_solidity_repository, initialize_repository_submodules, bind.
  rewrite (is_executable_available_bare "git" w eq_refl).
  destruct (dict_get (environ h) "PATH") as [path_var|];
    cbn [result final events].
  - split; [| discriminate]. intros [= ->]. split; reflexivity.
  - split; [discriminate |]. intros _. split; reflexivity.
Qed.

(** X20.  [install_solc_dependencies]: without a checkout at the
    repository path it raises the [OSError] naming that path and does
    nothing.  With one, and when the checkout can be entered, it enters
    the checkout, launches the script there (the working directory of
    the launch is the repository path, the files are those of before),
    and calls [os.chdir] with the directory of before: these three
    events and no others, whatever the script does.  When the working
    directory cannot be told, nothing is done; when the checkout cannot
    be entered, the script is not launched: the two calls of
    [os.chdir] are all that is logged, and an [OSError] is raised. *)
Theorem dependency_script_runs_in_checkout (identifier : string) (w : World FS) :
  (is_git_repository (get_repository_path h identifier) w = false ->
   install_solc_dependencies h identifier w
   = {| result := Raise (OSError ("Git repository not found @ "
                                    ++ get_repository_path h identifier));
        final := w; events := [] |})
  /\ (is_git_repository (get_repository_path h identifier) w = true ->
      (getcwd_failure w = None ->
       chdir_failure (get_repository_path h identifier) w = None ->
       exists w0,
         cwd w0 = get_repository_path h identifier
         /\ fs w0 = fs w
         /\ events (install_solc_dependencies h identifier w)
            = [ EvChdir (get_repository_path h identifier);
                EvSpawn (install_deps_command (get_repository_path h identifier))
                        (status_of
                           (os_exec (install_deps_command
                                       (get_repository_path h identifier)) [] w0));
                EvChdir (cwd w) ])
      /\ (forall msg, getcwd_failure w = Some msg ->
            install_solc_dependencies h identifier w
            = {| result := Raise (OSError msg); final := w; events := [] |})
      /\ (getcwd_failure w = None ->
          forall msg,
            chdir_failure (get_repository_path h identifier) w = Some msg ->
            events (install_solc_dependencies h identifier w)
            = [ EvChdir (get_repository_path h identifier); EvChdir (cwd w) ]
            /\ exists msg',
                 result (install_solc_dependencies h identifier w)
                 = Raise (OSError msg'))).
Proof.
  split; intros Hg.
  - unfold install_solc_dependencies, bind, reading. cbn [result final events].
    now rewrite Hg.
  - set (repo := get_repository_path h identifier) in *.
    split; [| split].
    + intros G C.
      set (Q := fun (_ : Result PyVal) (_ : World FS) (E : list Event) =>
             exists w0, cwd w0 = repo /\ fs w0 = fs w
               /\ E = [ EvChdir repo;
                        EvSpawn (install_deps_command repo)
                          (status_of (os_exec (install_deps_command repo) [] w0));
                        EvChdir (cwd w) ]).
      change (wp (install_solc_dependencies h identifier) Q w).
      unfold install_solc_dependencies. fold repo.
      apply wp_bind, wp_reading. rewrite Hg. cbn [negb].
      apply wp_chdir.
      * intros msg G'. congruence.
      * intros _ msg C'. congruence.
      * intros _ _. unfold check_subprocess_call.
        apply wp_bind, wp_announce. fold (install_deps_command repo).
        apply wp_subprocess_check_call; intros ? Hx; unfold Q;
          (split; [intros _ | intros msg' _]);
          eexists; (split; [| split; [| rewrite Hx; reflexivity]]);
          reflexivity.
    + intros msg G.
      unfold install_solc_dependencies, bind, reading. fold repo.
      cbn [result final events]. rewrite Hg. cbn [negb].
      unfold chdir, bind, os_getcwd. rewrite G. reflexivity.
    + intros G msg C.
      unfold install_solc_dependencies, bind, reading. fold repo.
      cbn [result final events]. rewrite Hg. cbn [negb].
      unfold chdir, bind, try_finally, os_getcwd, os_chdir. rewrite G.
      cbn [result final events]. rewrite C. cbn [result final events].
      destruct (chdir_failure (cwd w) w) as [msg'|];
        cbn [result final events app]; split; eauto.
Qed.

(** X21.  [initialize_repository_submodules], with [git] found: the one
    thing it does is to launch [git submodule update --init
    --recursive], and it launches it in the working directory of its
    caller: the repository path is in the message only.  It returns
    [None], not the status. *)
Theorem submodules_updated_in_callers_directory (identifier : string)
    (w : World FS) :
  result (is_executable_available h "git" w) = Return true ->
  exists w0,
    cwd w0 = cwd w
    /\ fs w0 = fs w
    /\ events (initialize_repository_submodules h identifier w)
       = [EvSpawn submodule_command (status_of (os_exec submodule_command [] w0))]
    /\ cwd (final (initialize_repository_submodules h identifier w)) = cwd w
    /\ (forall v, result (initialize_repository_submodules h identifier w)
                  = Return v -> v = PyNone).
Proof.
  intros Hg.
  set (Q := fun (res : Result PyVal) (w' : World FS) (E : list Event) =>
         exists w0, cwd w0 = cwd w /\ fs w0 = fs w
           /\ E = [EvSpawn submodule_command
                     (status_of (os_exec submodule_command [] w0))]
           /\ cwd w' = cwd w
           /\ (forall v, res = Return v -> v = PyNone)).
  change (wp (initialize_repository_submodules h identifier) Q w).
  unfold initialize_repository_submodules.
  rewrite (is_executable_available_bare "git" w eq_refl) in Hg.
  apply wp_bind. unfold wp at 1.
  rewrite (is_executable_available_bare "git" w eq_refl).
  destruct (dict_get (environ h) "PATH") as [path_var|];
    cbn [result final events] in *; [| discriminate].
  injection Hg as ->. cbn [negb].
  apply wp_bind. unfold check_subprocess_call.
  apply wp_bind, wp_announce. fold submodule_command.
  apply wp_subprocess_check_call; intros ? Hx.
  - unfold Q. eexists. rewrite Hx.
    repeat split; try reflexivity. discriminate.
  - destruct (Z.eqb (returncode_of c) 0); [apply wp_ret |]; unfold Q;
      eexists; rewrite Hx; repeat split; try reflexivity;
      try discriminate; now intros ? [= <-].
Qed.

(** X22.  The entry point.  Without an argument after the program name
    it prints the usage line and exits with status 1, and nothing else
    happens: no program is launched and no file touched.  Otherwise it
    installs the first argument for the detected platform, whatever
    follows it on the command line; an exception of the installation
    leaves the script as it is, and so do the installation's effects. *)
Theorem main_entry (argv : list string) (w : World FS) :
  ((length argv <= 1)%nat ->
   main h argv w
   = {| result := Return (SysExit 1);
        final := write_stdout [usage_line] w;
        events := [] |})
  /\ (forall program identifier rest,
        argv = program :: identifier :: rest ->
        result (main h argv w)
        = match result (install_solc h identifier None w) with
          | Return _ => Return Finished
          | Raise e => Raise e
          end
        /\ final (main h argv w) = final (install_solc h identifier None w)
        /\ events (main h argv w) = events (install_solc h identifier None w)).
Proof.
  split.
  - intros Hl. unfold main.
    destruct argv as [|a [|b rest]]; cbn in Hl; try lia; reflexivity.
  - intros program identifier rest ->. unfold main, bind, ret.
    cbn [nth_error].
    destruct (result (install_solc h identifier None w));
      cbn [result final events]; rewrite ?app_nil_r; auto.
Qed.

End Lookup.

(* ------------------------------------------------------------------ *)
(** ** Instances on the example machines *)
(* ------------------------------------------------------------------ *)

Lemma chmod_plus_x_sets_owner_exec_witness :
  Z.lor 493 S_IEXEC = 493%Z.
Proof.
  exact (proj2 (proj2 (proj2
           (proj1 (chmod_plus_x_sets_owner_exec (os := Toy.toy_os Toy.tools)
                     "/usr/bin/git" Toy.clean_box)
              493%Z eq_refl)))
           eq_refl).
Defined.

Lemma is_executable_available_lookup_witness :
  exists found,
    is_executable_available (os := Toy.toy_os Toy.tools) demo_host "git"
      Toy.clean_box
    = {| result := Return found; final := Toy.clean_box; events := [] |}
    /\ (found = true <->
        exists entry,
          In entry (Str.split ":" "/usr/bin:/bin")
          /\ is_exe (os := Toy.toy_os Toy.tools)
               (PosixPath.join (Str.strip double_quote entry) ["git"])
               Toy.clean_box
             = true).
Proof.
  exact (proj1 (proj2 (is_executable_available_lookup
                         (os := Toy.toy_os Toy.tools) demo_host "git"
                         Toy.clean_box))
           eq_refl "/usr/bin:/bin" eq_refl).
Defined.

Lemma git_required_witness :
  clone_solidity_repository (os := Toy.toy_os Toy.tools) demo_host V100_5_12
    bare_box
  = {| result := Raise git_missing_error; final := bare_box; events := [] |}
  /\ initialize_repository_submodules (os := Toy.toy_os Toy.tools) demo_host
       V100_5_12 bare_box
     = {| result := Raise git_missing_error; final := bare_box; events := [] |}.
Proof.
  exact (proj1 (git_required (os := Toy.toy_os Toy.tools) demo_host V100_5_12
                  bare_box)
           eq_refl).
Defined.

Lemma dependency_script_runs_in_checkout_witness :
  exists w0,
    cwd w0 = get_repository_path home_host V100_5_12
    /\ fs w0 = fs Toy.box_with_checkout
    /\ events (install_solc_dependencies (os := Toy.toy_os Toy.tools) home_host
                 V100_5_12 Toy.box_with_checkout)
       = [ EvChdir (get_repository_path home_host V100_5_12);
           EvSpawn (install_deps_command (get_repository_path home_host V100_5_12))
                   (status_of
                      (os_exec (OS := Toy.toy_os Toy.tools)
                         (install_deps_command
                            (get_repository_path home_host V100_5_12)) [] w0));
           EvChdir (cwd Toy.box_with_checkout) ].
Proof.
  exact (proj1 (proj2 (dependency_script_runs_in_checkout
                         (os := Toy.toy_os Toy.tools)
                         home_host V100_5_12 Toy.box_with_checkout)
                  eq_refl)
           eq_refl eq_refl).
Defined.

Lemma submodules_updated_in_callers_directory_witness :
  exists w0,
    cwd w0 = cwd Toy.box_with_checkout
    /\ fs w0 = fs Toy.box_with_checkout
    /\ events (initialize_repository_submodules (os := Toy.toy_os Toy.tools)
                 home_host V100_5_12 Toy.box_with_checkout)
       = [EvSpawn submodule_command
            (status_of (os_exec (OS := Toy.toy_os Toy.tools)
                          submodule_command [] w0))]
    /\ cwd (final (initialize_repository_submodules (os := Toy.toy_os Toy.tools)
                     home_host V100_5_12 Toy.box_with_checkout))
       = cwd Toy.box_with_checkout
    /\ (forall v,
          result (initialize_repository_submodules (os := Toy.toy_os Toy.tools)
                    home_host V100_5_12 Toy.box_with_checkout)
          = Return v -> v = PyNone).
Proof.
  exact (submodules_updated_in_callers_directory (os := Toy.toy_os Toy.tools)
           home_host V100_5_12 Toy.box_with_checkout eq_refl).
Defined.

Lemma main_entry_witness :
  main (os := Toy.toy_os Toy.tools) demo_host ["install_solc.py"] bare_box
  = {| result := Return (SysExit 1);
       final := write_stdout [usage_line] bare_box;
       events := [] |}.
Proof.
  exact (proj1 (main_entry (os := Toy.toy_os Toy.tools) demo_host
                  ["install_solc.py"] bare_box)
           (le_n 1)).
Defined.

(* ------------------------------------------------------------------ *)
(** ** What the source strategy touches *)
(* ------------------------------------------------------------------ *)

Ltac allowed_source :=
  intros; hnf;
  first [ exact I | reflexivity | (repeat split; auto 8) ].

Section SourceFootprint.

Context {FS : Type} {os : OS FS}.
Variable h : Host.
Local Open Scope py_scope.

Lemma sound_weaken {A} (P P' : Event -> Prop) (R R' : Exn -> Prop)
    (m : M FS A) :
  (forall e, P e -> P' e) -> (forall e, R e -> R' e) ->
  sound P R m -> sound P' R' m.
Proof.
  intros HP HR Hm w. destruct (Hm w) as (C & E & Rr & F).
  split; [exact C |]. split; [| split; [| exact F]].
  - eapply Forall_impl; [exact HP | exact E].
  - intros e He. apply HR, (Rr e He).
Qed.

Lemma flat_clone_solidity_repository_at identifier :
  flat (source_install_event h identifier) any_exn
       (clone_solidity_repository h identifier).
Proof.
  unfold clone_solidity_repository. apply flat_bind.
  - apply flat_is_executable_available; allowed_source.
  - intros git. destruct git; cbn [negb].
    + apply flat_bind.
      * apply flat_ensure_parent_dir_exists_at; allowed_source.
      * intros _. apply flat_check_subprocess_call; allowed_source.
    + apply flat_raise. exact I.
Qed.

Lemma sound_install_solc_dependencies_at identifier :
  sound (source_install_event h identifier) any_exn
        (install_solc_dependencies h identifier).
Proof.
  unfold install_solc_dependencies. apply sound_bind.
  - apply sound_of_flat, flat_reading. discriminate.
  - intros git. destruct git; cbn [negb].
    + apply sound_chdir; [allowed_source | allowed_source |].
      apply flat_check_subprocess_call; allowed_source.
    + apply sound_of_flat, flat_raise. exact I.
Qed.

Lemma sound_build_solc_from_source_at identifier :
  sound (source_install_event h identifier) any_exn
        (build_solc_from_source h identifier).
Proof.
  unfold build_solc_from_source.
  apply sound_bind;
    [apply sound_of_flat, flat_reading; discriminate | intros git].
  apply sound_bind;
    [destruct git; cbn [negb]; apply sound_of_flat;
       [apply flat_ret | apply flat_clone_solidity_repository_at]
    | intros _].
  apply sound_bind;
    [apply sound_of_flat, flat_ensure_path_exists_at; allowed_source
    | intros _].
  apply sound_bind; [| intros _].
  - apply sound_chdir; [allowed_source | allowed_source |].
    apply flat_bind; [| intros _];
      apply flat_check_subprocess_call; allowed_source.
  - apply sound_of_flat.
    apply flat_bind;
      [apply flat_chmod_plus_x_at; allowed_source | intros _].
    apply flat_bind;
      [apply flat_ensure_parent_dir_exists_at; allowed_source | intros _].
    apply flat_bind; [apply flat_mutating; allowed_source | intros _].
    apply flat_bind;
      [apply flat_chmod_plus_x_at; allowed_source | intros _].
    apply flat_ret.
Qed.

Lemma sound_install_from_source_at identifier :
  sound (source_install_event h identifier) any_exn
        (install_from_source h identifier).
Proof.
  unfold install_from_source.
  apply sound_bind;
    [apply sound_of_flat, flat_reading; discriminate | intros git].
  apply sound_bind;
    [destruct git; cbn [negb]; apply sound_of_flat;
       [apply flat_ret | apply flat_clone_solidity_repository_at]
    | intros _].
  apply sound_bind; [apply sound_install_solc_dependencies_at | intros _].
  apply sound_bind; [apply sound_build_solc_from_source_at | intros _].
  apply sound_of_flat.
  apply flat_bind; [apply flat_print | intros _; apply flat_ret].
Qed.

(** X23.  The calls of the source strategy stay in its own tree:
    [os.makedirs] is called with the parent of the repository path, the
    build directory and the directory of the executable path only; the
    commands it starts are the clone, the dependency script, [cmake ..]
    and [make]; [os.chmod] is called on the built executable and on
    the executable path only; the one link it asks for goes from the
    executable path to the built executable. *)
Theorem source_install_footprint (identifier : string) (w : World FS) :
  Forall (source_install_event h identifier)
         (events (install_from_source h identifier w)).
Proof. apply (sound_install_from_source_at identifier w). Qed.

Lemma static_install_no_submodule_update identifier (e : Event) :
  static_install_event h identifier e -> no_submodule_update e.
Proof.
  intros He s ->. cbn in He. destruct He as [He | He]; discriminate He.
Qed.

Lemma source_install_no_submodule_update identifier (e : Event) :
  source_install_event h identifier e -> no_submodule_update e.
Proof.
  intros He s ->. cbn in He.
  destruct He as [He | [He | [He | He]]]; discriminate He.
Qed.

Lemma sound_install_solc_no_submodule_update identifier platform :
  sound no_submodule_update any_exn (install_solc h identifier platform).
Proof.
  unfold install_solc. apply sound_bind.
  - destruct platform as [p|]; [apply sound_of_flat, flat_ret |].
    unfold get_platform.
    repeat match goal with
           | |- sound _ _ (if ?b then _ else _) => destruct b
           end;
      apply sound_of_flat; (apply flat_ret || (apply flat_raise; exact I)).
  - intros p. unfold INSTALL_FUNCTIONS.
    repeat (cbn [dict_get];
            match goal with
            | |- sound _ _ (match (if ?b then _ else _) with _ => _ end) =>
                destruct b
            end).
    all: cbn [dict_get].
    all: try (apply sound_of_flat, flat_raise; exact I).
    all: apply sound_bind; [| intros; apply sound_of_flat, flat_ret].
    all: unfold install_v100_5_12_linux, install_v100_5_15_linux,
           install_v100_5_12_osx, install_v100_5_15_osx.
    all: first
           [ apply (sound_weaken _ _ _ _ _
                      (static_install_no_submodule_update _)
                      (fun _ _ => I)
                      (sound_of_flat _ _ _
                         (flat_install_solc_from_static_linux h _)))
           | apply (sound_weaken _ _ _ _ _
                      (source_install_no_submodule_update _)
                      (fun _ _ => I)
                      (sound_install_from_source_at _)) ].
Qed.

(** X24.  No installation updates submodules by a command of its own:
    whatever the identifier, the platform and the machine,
    [install_solc] never starts [git submodule update --init
    --recursive]; [initialize_repository_submodules] is called by
    neither strategy. *)
Theorem install_solc_never_updates_submodules
    (identifier : string) (platform : option string) (w : World FS) :
  Forall no_submodule_update (events (install_solc h identifier platform w)).
Proof.
  apply (sound_install_solc_no_submodule_update identifier platform w).
Qed.

End SourceFootprint.

(* ------------------------------------------------------------------ *)
(** ** What the capturing runner shows *)
(* ------------------------------------------------------------------ *)

Section CapturingRunner.

Context {FS : Type} {os : OS FS}.
Local Open Scope py_scope.


End CapturingRunner.

